(** * FitnessProTracker: goal ledger, calorie estimator and aggregation core

    A shallow embedding of the computational core of the tracker
    ([data_manager.py], [models.py], [nutrition.py], [utils.py] and the
    analysis blocks of [app.py]) together with the properties its
    specification states about it.

    Conventions of the embedding:
    - Python numbers are exact rationals [Q]; the binary64 rounding of
      the individual float operations is not represented.  Results are
      compared with Leibniz equality wherever the embedding performs the
      very same sequence of operations as the code, and with [==]
      otherwise.
    - Calendar dates stored in records are the ["%Y-%m-%d"] strings of
      the code and are compared lexicographically, as Python compares
      [str]; parsed [datetime] values are day ordinals in [Z].
    - The wall clock is an argument: [today] is
      [datetime.now().strftime("%Y-%m-%d")], and [cutoff_date days] is
      [(datetime.now() - timedelta(days=days)).strftime("%Y-%m-%d")].
    - The JSON files are the fields of a [Store]; a dict loaded from JSON
      is a record with the keys the application writes. *)

From Stdlib Require Import QArith Qround Qabs Sorting.Sorted Sorting.Permutation.
From Stdlib Require Import Lqa Structures.OrderedTypeEx.
From stdpp Require Import base strings list gmap.

Local Open Scope string_scope.

(** ** Python comparisons and built-ins on numbers *)

Module Py.

(** [x <= y], [x < y], [x == y] on numbers, as booleans. *)
Definition le (x y : Q) : bool := Qle_bool x y.
Definition lt (x y : Q) : bool := negb (Qle_bool y x).
Definition eq (x y : Q) : bool := Qeq_bool x y.

(** [max(a, b)] keeps the first argument unless the second is strictly
    larger; [min(a, b)] keeps the first unless the second is strictly
    smaller. *)
Definition max (a b : Q) : Q := if lt a b then b else a.
Definition min (a b : Q) : Q := if lt b a then b else a.

(** [abs(x)]. *)
Definition abs (x : Q) : Q := Qabs x.

(** [round(x, ndigits)]: nearest multiple of [10^-ndigits], ties to the
    even multiple. *)
Definition round_half_even (x : Q) : Z :=
  let n := Qfloor x in
  let r := (x - inject_Z n)%Q in
  match Qcompare r (1 # 2) with
  | Lt => n
  | Gt => (n + 1)%Z
  | Eq => if Z.even n then n else (n + 1)%Z
  end.

Definition round (x : Q) (ndigits : nat) : Q :=
  let scale := inject_Z (10 ^ Z.of_nat ndigits) in
  (inject_Z (round_half_even (x * scale)) / scale)%Q.

End Py.

(** ** Outcome of a call that may raise *)

Inductive exn : Type :=
| KeyError (key : string).

Inductive outcome (A : Type) : Type :=
| Returns (a : A)
| Raises (e : exn).
Arguments Returns {A} a.
Arguments Raises {A} e.

Definition bind {A B} (m : outcome A) (k : A -> outcome B) : outcome B :=
  match m with
  | Returns a => k a
  | Raises e => Raises e
  end.

Notation "x <-- m ;; k" := (bind m (fun x => k))
  (at level 100, m at next level, right associativity).

(** ** Records of the data model *)

(** A goal dict of [goals.json].  The key [completion_date] is absent
    until the goal completes. *)
Record goal : Type := mkGoal {
  name : string;
  type : string;
  target : Q;
  current : Q;
  unit_ : string;
  start_date : string;
  target_date : string;
  status : string;
  completion_date : option string
}.

(** A workout dict of [workout_history.json].  The Workout Tracker form
    writes the key [calories_burned], the dashboard's quick save writes
    the key [calories]; each entry carries the keys its writer set. *)
Record workout : Type := mkWorkout {
  w_date : string;
  w_duration : Q;
  w_heart_rate : Q;
  w_body_temp : Q;
  w_calories_burned : option Q;
  w_calories : option Q
}.

(** A meal dict of [nutrition_logs.json]. *)
Record meal : Type := mkMeal {
  m_date : string;
  meal_type : string;
  food_name : string;
  m_calories : Q;
  m_protein : Q;
  m_carbs : Q;
  m_fat : Q
}.

(** ** The persistence collaborator ([utils.load_data], [utils.save_data]) *)

(** Each file is either unreadable ([None]: missing or not valid JSON) or
    holds a value.  [writable] tells whether [open(filename, 'w')]
    succeeds. *)
Record Store : Type := mkStore {
  goals_json : option (list goal);
  workout_history_json : option (list workout);
  nutrition_logs_json : option (list meal);
  writable : bool
}.

Definition load_data {A} (file : option A) (default_value : A) : A :=
  match file with
  | Some v => v
  | None => default_value
  end.

(** What [save_data(filename, data)] is asked to write: the file name
    together with a value of the shape that file holds. *)
Inductive json_file : Type :=
| goals_file (goals : list goal)
| workout_history_file (workouts : list workout)
| nutrition_logs_file (logs : list meal).

(** [save_data] answers [False] and leaves the files alone when the
    write raises. *)
Definition save_data (st : Store) (data : json_file) : bool * Store :=
  if writable st
  then (true,
        match data with
        | goals_file goals =>
            {| goals_json := Some goals;
               workout_history_json := workout_history_json st;
               nutrition_logs_json := nutrition_logs_json st;
               writable := true |}
        | workout_history_file workouts =>
            {| goals_json := goals_json st;
               workout_history_json := Some workouts;
               nutrition_logs_json := nutrition_logs_json st;
               writable := true |}
        | nutrition_logs_file logs =>
            {| goals_json := goals_json st;
               workout_history_json := workout_history_json st;
               nutrition_logs_json := Some logs;
               writable := true |}
        end)
  else (false, st).

(** ** Goal ledger ([data_manager.py]) *)

Definition get_goals (st : Store) : list goal := load_data (goals_json st) [].

Definition add_goal (st : Store) (goal_data : goal) : bool * Store :=
  save_data st (goals_file (get_goals st ++ [goal_data])).

Definition add_workout (st : Store) (workout_data : workout) : bool * Store :=
  save_data st
    (workout_history_file
       (load_data (workout_history_json st) [] ++ [workout_data])).

(** The test of the loop body: [goal['status'] == 'active' and
    goal['type'] == goal_type]. *)
Definition matches (goal_type : string) (g : goal) : bool :=
  String.eqb (status g) "active" && String.eqb (type g) goal_type.

(** The body of the loop for a goal that passed the test. *)
Definition add_progress (today : string) (amount : Q) (g : goal) : goal :=
  let current' := (current g + amount)%Q in
  if Py.le (target g) current'
  then {| name := name g; type := type g; target := target g;
          current := current'; unit_ := unit_ g;
          start_date := start_date g; target_date := target_date g;
          status := "completed"; completion_date := Some today |}
  else {| name := name g; type := type g; target := target g;
          current := current'; unit_ := unit_ g;
          start_date := start_date g; target_date := target_date g;
          status := status g; completion_date := completion_date g |}.

(** One iteration of the loop, seen from a single goal. *)
Definition step (today goal_type : string) (amount : Q) (g : goal) : goal :=
  if matches goal_type g then add_progress today amount g else g.

(** The [for goal in goals] loop, threading the [updated] flag. *)
Fixpoint progress_loop (today goal_type : string) (amount : Q)
    (goals : list goal) (updated : bool) : list goal * bool :=
  match goals with
  | [] => ([], updated)
  | g :: rest =>
      if matches goal_type g
      then let '(rest', u) := progress_loop today goal_type amount rest true in
           (add_progress today amount g :: rest', u)
      else let '(rest', u) := progress_loop today goal_type amount rest updated in
           (g :: rest', u)
  end.

Definition update_goal_progress (today : string) (st : Store)
    (goal_type : string) (amount : Q) : bool * Store :=
  let goals := load_data (goals_json st) [] in
  let '(goals', updated) := progress_loop today goal_type amount goals false in
  if updated
  then (updated, snd (save_data st (goals_file goals')))
  else (updated, st).

(** ** Formula library ([utils.py]) *)

Definition calculate_bmi (height_cm weight_kg : Q) : Q :=
  if Py.le height_cm 0 || Py.le weight_kg 0
  then 0
  else
    let height_m := (height_cm / 100)%Q in
    let bmi := (weight_kg / (height_m ^ 2))%Q in
    Py.round bmi 1.

Definition get_bmi_category (bmi : Q) : string :=
  if Py.le bmi 0 then "Unknown"
  else if Py.lt bmi (185 # 10) then "Underweight"
  else if Py.lt bmi 25 then "Normal weight"
  else if Py.lt bmi 30 then "Overweight"
  else "Obese".

Definition calories_to_weight (calories : Q) (direction : string) : Q :=
  if String.eqb direction "loss"
  then (Py.abs calories / 7700)%Q
  else (calories / 7700)%Q.

(** ** Calorie estimator ([models.py]) *)

(** The one-row [DataFrame] handed to the estimator: column name to the
    value of that column in the row. *)
Abbreviation frame := (gmap string Q).

(** [input_data[col].values[0]]. *)
Definition column (input_data : frame) (col : string) : outcome Q :=
  match input_data !! col with
  | Some v => Returns v
  | None => Raises (KeyError col)
  end.

Definition fallback_prediction (input_data : frame) : outcome Q :=
  age <-- column input_data "Age";;
  duration <-- column input_data "Duration";;
  heart_rate <-- column input_data "Heart_Rate";;
  gender_male <-- column input_data "Gender_male";;
  let gender_factor := if Py.eq gender_male 1 then (12 # 10) else 1%Q in
  let age_factor :=
    if Py.lt 20 age then (1 - (age - 20) * (5 # 1000))%Q else 1%Q in
  let calories :=
    (duration * (heart_rate - 60) * (175 # 10000)
       * gender_factor * age_factor)%Q in
  Returns (Py.max 0 calories).

(** The trained regressor is an external collaborator: [predict] maps
    the feature values, in column order, to a prediction, or raises
    ([None]) when the feature schema does not fit. *)
Definition regressor : Type := list Q -> option Q.

(** What [calorie_prediction_model.pkl] holds. *)
Inductive model_file : Type :=
| Absent
| Corrupt
| Pickled (model : regressor).

(** The estimator's surroundings: the model file, and what
    [train_model()] would do if called ([None]: it returns [False];
    [Some m]: it pickles [m] and returns [True]). *)
Record Env : Type := mkEnv {
  model_pkl : model_file;
  train_model : option regressor
}.

Definition expected_columns : list string :=
  ["Age"; "BMI"; "Duration"; "Heart_Rate"; "Body_Temp"; "Gender_male"].

(** [for col in expected_columns: if col not in input_data.columns:
    input_data[col] = 0]. *)
Definition fill_missing (input_data : frame) : frame :=
  foldl (fun d col => match d !! col with
                      | Some _ => d
                      | None => <[col := 0%Q]> d
                      end)
        input_data expected_columns.

(** [input_data[expected_columns]]: the frame restricted to the listed
    columns, and its row of values in that order. *)
Definition select_columns (input_data : frame) (cols : list string) : frame :=
  list_to_map (omap (fun c => (fun v => (c, v)) <$> input_data !! c) cols).

Definition row_values (input_data : frame) (cols : list string) : list Q :=
  omap (fun c => input_data !! c) cols.

(** The [try] block of [predict_calories] and its [except] handler. *)
Definition try_model (pkl : model_file) (input_data : frame) : outcome Q :=
  match pkl with
  | Pickled model =>
      let input_data1 := fill_missing input_data in
      let input_data2 := select_columns input_data1 expected_columns in
      match model (row_values input_data2 expected_columns) with
      | Some prediction => Returns prediction
      | None => fallback_prediction input_data2
      end
  | Absent | Corrupt => fallback_prediction input_data
  end.

(** Only the outcome is kept: the model file written by a successful
    training and the zero columns added to the caller's frame are not
    observed by any later step of one call. *)
Definition predict_calories (env : Env) (input_data : frame) : outcome Q :=
  match model_pkl env with
  | Absent =>
      match train_model env with
      | None => fallback_prediction input_data
      | Some model => try_model (Pickled model) input_data
      end
  | pkl => try_model pkl input_data
  end.

(** ** Stable sort by key ([list.sort(key=...)]) *)

Fixpoint insert_sorted {A} (le : A -> A -> bool) (x : A) (l : list A) : list A :=
  match l with
  | [] => [x]
  | y :: l' => if le x y then x :: l else y :: insert_sorted le x l'
  end.

Definition sort_by {A} (le : A -> A -> bool) (l : list A) : list A :=
  foldr (insert_sorted le) [] l.

(** ** Insertion-ordered dict keyed by date *)

(** [if k not in d: d[k] = init(k)] followed by an in-place update [f]
    of [d[k]]; [key] reads the date stored inside the entry. *)
Fixpoint upsert {A} (key : A -> string) (init : string -> A) (f : A -> A)
    (k : string) (d : list A) : list A :=
  match d with
  | [] => [f (init k)]
  | e :: d' =>
      if String.eqb (key e) k then f e :: d'
      else e :: upsert key init f k d'
  end.

(** ** Nutrition history ([nutrition.py]) *)

(** One aggregated dict: [{'date', 'calories', 'protein', 'carbs', 'fat'}]. *)
Record day_totals : Type := mkDayTotals {
  dt_date : string;
  dt_calories : Q;
  dt_protein : Q;
  dt_carbs : Q;
  dt_fat : Q
}.

Definition empty_totals (date : string) : day_totals :=
  {| dt_date := date; dt_calories := 0; dt_protein := 0;
     dt_carbs := 0; dt_fat := 0 |}.

(** The four [+=] of the aggregation loop. *)
Definition add_meal (log : meal) (t : day_totals) : day_totals :=
  {| dt_date := dt_date t;
     dt_calories := (dt_calories t + m_calories log)%Q;
     dt_protein := (dt_protein t + m_protein log)%Q;
     dt_carbs := (dt_carbs t + m_carbs log)%Q;
     dt_fat := (dt_fat t + m_fat log)%Q |}.

Definition aggregate (filtered_logs : list meal) : list day_totals :=
  foldl (fun aggregated_data log =>
           upsert dt_date empty_totals (add_meal log) (m_date log)
                  aggregated_data)
        [] filtered_logs.

Definition log_meal (st : Store) (meal_data : meal) : bool * Store :=
  save_data st
    (nutrition_logs_file
       (load_data (nutrition_logs_json st) [] ++ [meal_data])).

(** The function returns two shapes: the stored meal dicts, or the
    per-day aggregates. *)
Inductive nutrition_history : Type :=
| Meals (logs : list meal)
| Daily (result : list day_totals).

Section Clock.

(** [(datetime.now() - timedelta(days=days)).strftime("%Y-%m-%d")]. *)
Variable cutoff_date : Z -> string.

Definition get_nutrition_history (st : Store) (days : option Z)
  : nutrition_history :=
  let nutrition_logs := load_data (nutrition_logs_json st) [] in
  match days with
  | None => Meals nutrition_logs
  | Some days =>
      let cutoff := cutoff_date days in
      let filtered_logs :=
        List.filter (fun log => String.leb cutoff (m_date log))
                    nutrition_logs in
      let result := aggregate filtered_logs in
      Daily (sort_by (fun x y => String.leb (dt_date x) (dt_date y)) result)
  end.

End Clock.

(** ** Consistency score ([app.py], Workout Patterns tab) *)

(** The session's profile dict; [workout_frequency] is read with
    [profile.get('workout_frequency', 3)] and may be absent. *)
Record user_profile : Type := mkProfile {
  age : Q;
  gender : string;
  height : Q;
  weight : Q;
  workout_frequency : option Q
}.

(** [workout_dates] are the parsed dates of the history, one per
    workout, so [len(workout_history)] is their number. *)
Definition consistency_score (profile : user_profile) (workout_dates : list Z)
  : Q :=
  match sort_by Z.leb workout_dates with
  | [] => 0%Q
  | first :: rest =>
      let last := List.last rest first in
      let date_range := (last - first + 1)%Z in
      let ideal_frequency := default 3%Q (workout_frequency profile) in
      let ideal_count := (inject_Z date_range / 7 * ideal_frequency)%Q in
      let actual_count := inject_Z (Z.of_nat (length workout_dates)) in
      if Py.lt 0 ideal_count
      then Py.min 100 (actual_count / ideal_count * 100)%Q
      else 0%Q
  end.

(** ** Energy balance ([app.py], Calories & Nutrition tab) *)

Record day_balance : Type := mkBalance {
  date : string;
  burned : Q;
  consumed : Q
}.

Record day_net : Type := mkNet {
  n_date : string;
  net : Q
}.

Definition empty_balance (d : string) : day_balance :=
  {| date := d; burned := 0; consumed := 0 |}.

Definition add_burned (calories : Q) (b : day_balance) : day_balance :=
  {| date := date b; burned := (burned b + calories)%Q; consumed := consumed b |}.

Definition add_consumed (calories : Q) (b : day_balance) : day_balance :=
  {| date := date b; burned := burned b; consumed := (consumed b + calories)%Q |}.

Definition by_date (x y : string * Q) : bool := String.leb (fst x) (fst y).

(** [[(w["date"], w["calories"]) for w in workout_history]]. *)
Fixpoint workout_pairs (workout_history : list workout)
  : outcome (list (string * Q)) :=
  match workout_history with
  | [] => Returns []
  | w :: rest =>
      match w_calories w with
      | None => Raises (KeyError "calories")
      | Some c => ps <-- workout_pairs rest;; Returns ((w_date w, c) :: ps)
      end
  end.

Definition nutrition_pairs (nutrition_logs : list meal) : list (string * Q) :=
  map (fun n => (m_date n, m_calories n)) nutrition_logs.

(** The merge proper: both loops over [date_data], then
    [list(date_data.values())] sorted by date. *)
Definition merge_by_date (workout_calories nutrition_data : list (string * Q))
  : list day_balance :=
  let date_data :=
    foldl (fun d p => upsert date empty_balance (add_burned (snd p)) (fst p) d)
          [] workout_calories in
  let date_data :=
    foldl (fun d p => upsert date empty_balance (add_consumed (snd p)) (fst p) d)
          date_data nutrition_data in
  sort_by (fun x y => String.leb (date x) (date y)) date_data.

Definition net_of (d : day_balance) : day_net :=
  {| n_date := date d; net := (consumed d - burned d)%Q |}.

(** The block under [if nutrition_logs:]; [cutoff] is the 14-day cutoff
    string.  [None] when the block is skipped because no meal was ever
    logged. *)
Definition energy_balance (cutoff : string) (workout_history : list workout)
    (nutrition_logs : list meal)
  : outcome (option (list day_balance * list day_net)) :=
  ps <-- workout_pairs workout_history;;
  let workout_calories := sort_by by_date ps in
  match nutrition_logs with
  | [] => Returns None
  | _ :: _ =>
      let nutrition_data := sort_by by_date (nutrition_pairs nutrition_logs) in
      let combined_data := merge_by_date workout_calories nutrition_data in
      let recent_data :=
        List.filter (fun d => String.leb cutoff (date d)) combined_data in
      Returns (Some (combined_data, map net_of recent_data))
  end.

(** ** Logging a workout ([app.py], Workout Tracker tab) *)



(** ** Goal ledger, the remaining operations ([data_manager.py]) *)

(** [goal['name'] == goal_name and goal['target_date'] == target_date]. *)
Definition is_goal (goal_name date_ : string) (g : goal) : bool :=
  String.eqb (name g) goal_name && String.eqb (target_date g) date_.

(** The loop of [delete_goal]: [del goals[i]] at the first hit, [None]
    when the loop runs out. *)
Fixpoint delete_first (goal_name date_ : string) (goals : list goal)
  : option (list goal) :=
  match goals with
  | [] => None
  | g :: rest =>
      if is_goal goal_name date_ g then Some rest
      else match delete_first goal_name date_ rest with
           | Some rest' => Some (g :: rest')
           | None => None
           end
  end.

Definition delete_goal (st : Store) (goal_name date_ : string) : bool * Store :=
  match delete_first goal_name date_ (load_data (goals_json st) []) with
  | Some goals' => (true, snd (save_data st (goals_file goals')))
  | None => (false, st)
  end.

Section WorkoutWindow.

(** [(datetime.now() - timedelta(days=days)).strftime("%Y-%m-%d")]. *)
Variable cutoff_date : Z -> string.

Definition get_workout_history (st : Store) (days : option Z) : list workout :=
  let workouts := load_data (workout_history_json st) [] in
  match days with
  | None => workouts
  | Some days =>
      let cutoff := cutoff_date days in
      List.filter (fun w => String.leb cutoff (w_date w)) workouts
  end.

End WorkoutWindow.

(** ** Daily needs ([nutrition.py]) *)




(** ** Updating a goal by hand ([app.py], Goal Setting tab) *)

(** [for g in goals: if <test>: <update>; break]. *)
Fixpoint update_first (test : goal -> bool) (f : goal -> goal)
    (goals : list goal) : list goal :=
  match goals with
  | [] => []
  | g :: rest =>
      if test g then f g :: rest else g :: update_first test f rest
  end.

(** The test of the form's loops: same name and target date as the goal
    picked for update. *)
Definition same_goal (goal' : goal) (g : goal) : bool :=
  is_goal (name goal') (target_date goal') g.

Definition set_current (value : Q) (g : goal) : goal :=
  {| name := name g; type := type g; target := target g;
     current := value; unit_ := unit_ g;
     start_date := start_date g; target_date := target_date g;
     status := status g; completion_date := completion_date g |}.


Definition set_status (s : string) (g : goal) : goal :=
  {| name := name g; type := type g; target := target g;
     current := current g; unit_ := unit_ g;
     start_date := start_date g; target_date := target_date g;
     status := s; completion_date := completion_date g |}.

Definition set_completion_date (d : string) (g : goal) : goal :=
  {| name := name g; type := type g; target := target g;
     current := current g; unit_ := unit_ g;
     start_date := start_date g; target_date := target_date g;
     status := status g; completion_date := Some d |}.

Definition mark_completed (today : string) (g : goal) : goal :=
  set_completion_date today (set_status "completed" g).

(** The Update Progress button under "Set New Value".  [goal'] is the
    dict kept in the session since the Update button was pressed, a
    copy that later loads of [goals.json] do not share. *)
Definition set_new_value (today : string) (st : Store) (goal' : goal)
    (new_value : Q) : Store :=
  let goals := get_goals st in
  let goals := update_first (same_goal goal') (set_current new_value) goals in
  let st := snd (save_data st (goals_file goals)) in
  if Py.le (target goal') new_value
  then
    let goals := update_first (same_goal goal') (mark_completed today) goals in
    snd (save_data st (goals_file goals))
  else st.


(** ** Marking a goal complete ([app.py], Goal Setting tab) *)

(** [==] on two goal dicts: the same keys with equal values. *)
Definition goal_eqb (a b : goal) : bool :=
  String.eqb (name a) (name b) && String.eqb (type a) (type b)
  && Py.eq (target a) (target b) && Py.eq (current a) (current b)
  && String.eqb (unit_ a) (unit_ b)
  && String.eqb (start_date a) (start_date b)
  && String.eqb (target_date a) (target_date b)
  && String.eqb (status a) (status b)
  && match completion_date a, completion_date b with
     | Some x, Some y => String.eqb x y
     | None, None => true
     | _, _ => false
     end.

(** [goals.index(x)]: the position of the first dict equal to [x];
    [None] when the call raises [ValueError]. *)
Fixpoint index_of (x : goal) (goals : list goal) : option nat :=
  match goals with
  | [] => None
  | g :: rest =>
      if goal_eqb g x then Some 0%nat
      else match index_of x rest with
           | Some i => Some (S i)
           | None => None
           end
  end.

Inductive pressed : Type :=
| Saved (st : Store)
| NoButton
| ValueError.

(** The Complete button drawn for the goal at position [k] of the
    loaded list; only active goals have one.  The goal is looked up
    again, by equality, for each of the two assignments, the second
    time as it is after the first assignment. *)
Definition complete_button (today : string) (st : Store) (k : nat) : pressed :=
  let goals := get_goals st in
  match goals !! k with
  | None => NoButton
  | Some goal' =>
      if negb (String.eqb (status goal') "active") then NoButton
      else
        match index_of goal' goals with
        | None => ValueError
        | Some i =>
            let goals := alter (set_status "completed") i goals in
            match goals !! k with
            | None => ValueError
            | Some goal' =>
                match index_of goal' goals with
                | None => ValueError
                | Some j =>
                    let goals := alter (set_completion_date today) j goals in
                    Saved (snd (save_data st (goals_file goals)))
                end
            end
        end
  end.

(** ** Recent workouts ([app.py], Dashboard tab) *)

(** [sorted(workout_history, key=lambda x: x['date'], reverse=True)[:3]];
    a reversed sort keeps entries of equal date in their original
    order. *)
Definition recent_workouts (workout_history : list workout) : list workout :=
  take 3 (sort_by (fun x y => String.leb (w_date y) (w_date x))
                  workout_history).

(** ** Date ranges ([utils.py]) *)

Inductive date_range_result : Type :=
| Dates (date_list : list string)
| BadDate
| OutOfFuel.

Section DateRange.

(** [datetime.strptime(s, "%Y-%m-%d")] as a day ordinal, [None] when it
    raises [ValueError]; [d.strftime("%Y-%m-%d")]. *)
Variable strptime : string -> option Z.
Variable strftime : Z -> string.

(** The [while current <= end] loop; [fuel] bounds the number of
    iterations the embedding may run. *)
Fixpoint date_range_loop (fuel : nat) (current end_ : Z) (date_list : list string)
  : option (list string) :=
  if Z.leb current end_
  then match fuel with
       | O => None
       | S fuel' =>
           date_range_loop fuel' (current + 1)%Z end_
                           (date_list ++ [strftime current])
       end
  else Some date_list.

Definition date_range (fuel : nat) (start_date end_date : string)
  : date_range_result :=
  match strptime start_date with
  | None => BadDate
  | Some start =>
      match strptime end_date with
      | None => BadDate
      | Some end_ =>
          match date_range_loop fuel start end_ [] with
          | Some date_list => Dates date_list
          | None => OutOfFuel
          end
      end
  end.

End DateRange.

(** ** Healthy weight range ([app.py], Profile tab) *)

(** [min_weight] and [max_weight] of the statistics block. *)
Definition healthy_weight_range (height : Q) : Q * Q :=
  ((185 # 10) * (height / 100) ^ 2, (249 # 10) * (height / 100) ^ 2)%Q.

(** ** Notions used to state the aggregation properties *)

(** [((0 + x1) + x2) + ...]: the sum a Python loop of [+=] builds from 0,
    in the order of the list. *)
Definition sum_in_order (l : list Q) : Q := foldl Qplus 0%Q l.

(** A run of [upsert] operations, each a date with the update to apply
    to that date's entry. *)
Definition run_ops {A} (key : A -> string) (init : string -> A)
    (d0 : list A) (ops : list (string * (A -> A))) : list A :=
  foldl (fun d op => upsert key init (snd op) (fst op) d) d0 ops.

(** The updates addressed to date [k], applied in order to a fresh entry. *)
Definition replay {A} (init : string -> A) (k : string)
    (ops : list (string * (A -> A))) : A :=
  foldl (fun e op => snd op e) (init k)
        (List.filter (fun op => String.eqb (fst op) k) ops).

(** An update that leaves the date of an entry alone. *)
Definition keeps_key {A} (key : A -> string) (f : A -> A) : Prop :=
  forall e, key (f e) = key e.

(** The loops of the aggregations, read as operations on the dict. *)
Definition meal_op (log : meal) : string * (day_totals -> day_totals) :=
  (m_date log, add_meal log).



(** The row handed to the regressor: the expected columns in order,
    0 for a column the frame lacks. *)
Definition features_of (input_data : frame) : list Q :=
  map (fun c => default 0%Q (input_data !! c)) expected_columns.

(** ** Sample data used by the worked examples below *)

Module Sample.

(** The default profile of a fresh session. *)
Definition profile : user_profile :=
  {| age := 30; gender := "Male"; height := 170; weight := 70;
     workout_frequency := None |}.

(** No model file, and no training data to build one from. *)
Definition no_model : Env := {| model_pkl := Absent; train_model := None |}.

Definition first_workout : goal :=
  {| name := "First workout"; type := "workout_count";
     target := 1; current := 0; unit_ := "workouts";
     start_date := "2024-03-01"; target_date := "2024-03-31";
     status := "active"; completion_date := None |}.

Definition marathon : goal :=
  {| name := "Marathon"; type := "workout_duration";
     target := 240; current := 250; unit_ := "minutes";
     start_date := "2024-01-01"; target_date := "2024-02-29";
     status := "completed"; completion_date := Some "2024-02-11" |}.

Definition store : Store :=
  {| goals_json := Some [first_workout; marathon];
     workout_history_json := None;
     nutrition_logs_json := None;
     writable := true |}.

(** A feature row built without the [Age] column. *)
Definition row_without_age : frame :=
  list_to_map [("BMI", 242 # 10); ("Duration", 30%Q); ("Heart_Rate", 120%Q);
               ("Body_Temp", 37%Q); ("Gender_male", 1%Q)].

(** A man of the given age, 30 minutes at 120 bpm. *)
Definition row_of_age (a : Q) : frame := <["Age" := a]> row_without_age.

(** A model file that exists but cannot be unpickled. *)
Definition corrupt_model : Env :=
  {| model_pkl := Corrupt; train_model := None |}.

Definition meals : list meal :=
  [ {| m_date := "2024-03-02"; meal_type := "Breakfast"; food_name := "Oats";
       m_calories := 400; m_protein := 20; m_carbs := 50; m_fat := 10 |};
    {| m_date := "2024-03-01"; meal_type := "Lunch"; food_name := "Rice";
       m_calories := 700; m_protein := 30; m_carbs := 90; m_fat := 20 |};
    {| m_date := "2024-03-02"; meal_type := "Dinner"; food_name := "Soup";
       m_calories := 600; m_protein := 25; m_carbs := 60; m_fat := 15 |};
    {| m_date := "2024-02-01"; meal_type := "Snack"; food_name := "Apple";
       m_calories := 100; m_protein := 1; m_carbs := 25; m_fat := 0 |} ].

Definition fed_store : Store :=
  {| goals_json := None; workout_history_json := None;
     nutrition_logs_json := Some meals; writable := true |}.

(** The cutoffs computed on 2024-03-03 for the windows the examples
    ask for, 7 and 30 days; any other argument is read as [days=0]. *)
Definition cutoff_date (days : Z) : string :=
  if Z.eqb days 7 then "2024-02-25"
  else if Z.eqb days 30 then "2024-02-02"
  else "2024-03-03".

(** Workouts saved from the dashboard, which carry the [calories] key. *)
Definition quick_saved : list workout :=
  [ {| w_date := "2024-03-03"; w_duration := 30; w_heart_rate := 120;
       w_body_temp := 37; w_calories_burned := None;
       w_calories := Some 250%Q |};
    {| w_date := "2024-03-02"; w_duration := 20; w_heart_rate := 110;
       w_body_temp := 37; w_calories_burned := None;
       w_calories := Some 150%Q |};
    {| w_date := "2024-03-03"; w_duration := 10; w_heart_rate := 100;
       w_body_temp := 37; w_calories_burned := None;
       w_calories := Some 50%Q |} ].

End Sample.

(** ** More sample data *)

Module Fixture.

Definition swim : goal :=
  {| name := "Swim"; type := "custom";
     target := 10; current := 0; unit_ := "km";
     start_date := "2024-03-01"; target_date := "2024-06-01";
     status := "active"; completion_date := None |}.

(** A store whose files cannot be written. *)
Definition read_only : Store :=
  {| goals_json := Some [Sample.first_workout];
     workout_history_json := None; nutrition_logs_json := None;
     writable := false |}.


(** Two goals entered twice with the same fields. *)
Definition twins : Store :=
  {| goals_json := Some [Sample.first_workout; Sample.first_workout];
     workout_history_json := None; nutrition_logs_json := None;
     writable := true |}.

Definition pear (date_ : string) : meal :=
  {| m_date := date_; meal_type := "Snack"; food_name := "Pear";
     m_calories := 80; m_protein := 1; m_carbs := 20; m_fat := 0 |}.

Definition old_workout : workout :=
  {| w_date := "2024-02-20"; w_duration := 30; w_heart_rate := 120;
     w_body_temp := 37; w_calories_burned := Some 200%Q;
     w_calories := None |}.

(** A regressor that answers Age minus Duration on a six-value row. *)
Definition age_minus_duration : regressor :=
  fun features =>
    match features with
    | [a; b; d; h; t; g] => Some (a - d)%Q
    | _ => None
    end.

(** Three days of March 2024 as day ordinals. *)
Definition strptime (s : string) : option Z :=
  if String.eqb s "2024-03-01" then Some 19783%Z
  else if String.eqb s "2024-03-03" then Some 19785%Z
  else None.

Definition strftime (d : Z) : string :=
  if Z.eqb d 19783 then "2024-03-01"
  else if Z.eqb d 19784 then "2024-03-02"
  else if Z.eqb d 19785 then "2024-03-03"
  else "".

End Fixture.

(** * Properties *)

(** ** Python comparisons *)

Module PyFacts.

Lemma le_spec x y : Py.le x y = true <-> (x <= y)%Q.
Proof. apply Qle_bool_iff. Qed.

Lemma lt_spec x y : Py.lt x y = true <-> (x < y)%Q.
Proof.
  unfold Py.lt. rewrite negb_true_iff. split.
  - intros H. apply Qnot_le_lt. intros Hle.
    apply Qle_bool_iff in Hle. congruence.
  - intros H. destruct (Qle_bool y x) eqn:E; [|reflexivity].
    apply Qle_bool_iff in E. exfalso. exact (Qlt_not_le _ _ H E).
Qed.

Lemma lt_false x y : Py.lt x y = false <-> (y <= x)%Q.
Proof. unfold Py.lt. rewrite negb_false_iff. apply Qle_bool_iff. Qed.

Lemma le_false x y : Py.le x y = false <-> (y < x)%Q.
Proof.
  split.
  - intros H. apply Qnot_le_lt. intros Hle.
    apply le_spec in Hle. congruence.
  - intros H. destruct (Py.le x y) eqn:E; [|reflexivity].
    apply le_spec in E. exfalso. exact (Qlt_not_le _ _ H E).
Qed.

End PyFacts.

(** ** Goal ledger *)

Section GoalLedger.

Variable today : string.
Variable goal_type : string.
Variable amount : Q.

Local Abbreviation step := (step today goal_type amount).

Lemma matches_spec g :
  matches goal_type g = true <-> status g = "active" /\ type g = goal_type.
Proof.
  unfold matches. rewrite andb_true_iff, !String.eqb_eq. reflexivity.
Qed.

Lemma matches_false g :
  matches goal_type g = false <-> ~ (status g = "active" /\ type g = goal_type).
Proof.
  rewrite <- matches_spec. destruct (matches goal_type g); split; congruence.
Qed.

Lemma progress_loop_goals goals updated :
  fst (progress_loop today goal_type amount goals updated) = map step goals.
Proof.
  revert updated. induction goals as [|g rest IH]; intros updated; simpl.
  - reflexivity.
  - unfold step at 1. destruct (matches goal_type g).
    + specialize (IH true).
      destruct (progress_loop today goal_type amount rest true); simpl in *.
      now rewrite IH.
    + specialize (IH updated).
      destruct (progress_loop today goal_type amount rest updated); simpl in *.
      now rewrite IH.
Qed.

Lemma progress_loop_flag goals updated :
  snd (progress_loop today goal_type amount goals updated)
  = updated || existsb (matches goal_type) goals.
Proof.
  revert updated. induction goals as [|g rest IH]; intros updated; simpl.
  - now rewrite orb_false_r.
  - destruct (matches goal_type g).
    + specialize (IH true).
      destruct (progress_loop today goal_type amount rest true); simpl in *.
      rewrite IH. now rewrite orb_true_r.
    + specialize (IH updated).
      destruct (progress_loop today goal_type amount rest updated); simpl in *.
      exact IH.
Qed.

(** The call, with the loop replaced by its closed form. *)
Lemma update_goal_progress_unfold st :
  update_goal_progress today st goal_type amount
  = if existsb (matches goal_type) (get_goals st)
    then (true, snd (save_data st (goals_file (map step (get_goals st)))))
    else (false, st).
Proof.
  unfold update_goal_progress, get_goals.
  pose proof (progress_loop_goals (load_data (goals_json st) []) false) as Hg.
  pose proof (progress_loop_flag (load_data (goals_json st) []) false) as Hf.
  destruct (progress_loop today goal_type amount
              (load_data (goals_json st) []) false) as [goals' updated].
  simpl in Hg, Hf. subst goals' updated.
  now destruct (existsb (matches goal_type) (load_data (goals_json st) [])).
Qed.

Lemma get_goals_saved st goals :
  writable st = true ->
  get_goals (snd (save_data st (goals_file goals))) = goals.
Proof. intros Hw. unfold save_data. now rewrite Hw. Qed.

Lemma save_data_readonly st data :
  writable st = false -> snd (save_data st data) = st.
Proof. intros Hw. unfold save_data. now rewrite Hw. Qed.

Lemma step_other g : matches goal_type g = false -> step g = g.
Proof. intros H. unfold step. now rewrite H. Qed.


(** Whatever the file permissions, the stored collection after the
    call is either the loop's result or the collection as loaded. *)
Lemma get_goals_after st :
  let st' := snd (update_goal_progress today st goal_type amount) in
  get_goals st' = map step (get_goals st) \/ get_goals st' = get_goals st.
Proof.
  simpl. rewrite update_goal_progress_unfold.
  destruct (existsb (matches goal_type) (get_goals st)) eqn:E; simpl.
  - destruct (writable st) eqn:Hw.
    + left. now apply get_goals_saved.
    + right. now rewrite save_data_readonly.
  - now right.
Qed.






End GoalLedger.

(** ** Claims about the goal ledger *)


(** C2.  A goal whose status is [completed] is left exactly as it is by
    any later call, whatever the goal type and the delta: same position
    in the collection, same [current], [status], [completion_date] and
    every other field. *)
Theorem completed_goal_is_terminal (today : string) (st : Store)
    (goal_type : string) (d : Q) (i : nat) (g : goal) :
  get_goals st !! i = Some g ->
  status g = "completed" ->
  get_goals (snd (update_goal_progress today st goal_type d)) !! i = Some g.
Proof.
  intros Hi Hs.
  destruct (get_goals_after today goal_type d st) as [H | H]; rewrite H.
  - rewrite list_lookup_fmap, Hi. cbn. f_equal. apply step_other.
    unfold matches. now rewrite Hs.
  - exact Hi.
Qed.

(** C9.  The call touches only goals that are active and of the given
    type: every other goal keeps its position and all its fields, the
    collection keeps its length, and when no goal matches the call
    returns [False] and the store is exactly the one it started from. *)
Theorem update_goal_progress_frame (today : string) (st : Store)
    (goal_type : string) (d : Q) :
  let result := update_goal_progress today st goal_type d in
  (forall (i : nat) (g : goal),
      get_goals st !! i = Some g ->
      ~ (status g = "active" /\ type g = goal_type) ->
      get_goals (snd result) !! i = Some g) /\
  length (get_goals (snd result)) = length (get_goals st) /\
  ((forall g, In g (get_goals st) ->
              ~ (status g = "active" /\ type g = goal_type)) ->
   result = (false, st)).
Proof.
  intros result. subst result. split; [|split].
  - intros i g Hi Hn. apply matches_false in Hn.
    destruct (get_goals_after today goal_type d st) as [H | H]; rewrite H.
    + rewrite list_lookup_fmap, Hi. cbn. f_equal. now apply step_other.
    + exact Hi.
  - destruct (get_goals_after today goal_type d st) as [H | H]; rewrite H.
    + apply length_fmap.
    + reflexivity.
  - intros Hnone. rewrite update_goal_progress_unfold.
    destruct (existsb (matches goal_type) (get_goals st)) eqn:Hex;
      [|reflexivity].
    apply existsb_exists in Hex. destruct Hex as (g & Hin & Hm).
    apply matches_spec in Hm. exfalso. exact (Hnone g Hin Hm).
Qed.


Lemma completed_goal_is_terminal_witness :
  get_goals (snd (update_goal_progress "2024-03-10" Sample.store
                    "workout_duration" 45)) !! 1%nat = Some Sample.marathon.
Proof.
  apply (completed_goal_is_terminal "2024-03-10" Sample.store
           "workout_duration" 45 1%nat Sample.marathon); reflexivity.
Defined.


(** ** Calorie estimator *)

Section Estimator.

Implicit Types (input_data d : frame) (c col : string).

Lemma column_present input_data c v :
  input_data !! c = Some v -> column input_data c = Returns v.
Proof. intros H. unfold column. now rewrite H. Qed.

Lemma column_missing input_data c :
  input_data !! c = None -> column input_data c = Raises (KeyError c).
Proof. intros H. unfold column. now rewrite H. Qed.

(** The formula of the fallback, as a function of the four values it
    reads. *)
Lemma fallback_prediction_value input_data a dur hr gm :
  input_data !! "Age" = Some a ->
  input_data !! "Duration" = Some dur ->
  input_data !! "Heart_Rate" = Some hr ->
  input_data !! "Gender_male" = Some gm ->
  fallback_prediction input_data =
  Returns (Py.max 0
             (dur * (hr - 60) * (175 # 10000)
              * (if Py.eq gm 1 then 12 # 10 else 1)
              * (if Py.lt 20 a then 1 - (a - 20) * (5 # 1000) else 1))%Q).
Proof.
  intros Ha Hd Hh Hg. unfold fallback_prediction.
  rewrite (column_present _ _ _ Ha). cbn [bind].
  rewrite (column_present _ _ _ Hd). cbn [bind].
  rewrite (column_present _ _ _ Hh). cbn [bind].
  rewrite (column_present _ _ _ Hg). cbn [bind].
  reflexivity.
Qed.

Lemma py_max_nonneg x : (0 <= Py.max 0 x)%Q.
Proof.
  unfold Py.max. destruct (Py.lt 0 x) eqn:E.
  - apply PyFacts.lt_spec in E. now apply Qlt_le_weak.
  - apply Qle_refl.
Qed.

(** Filling in the defaults leaves every expected column present and
    keeps the values that were there. *)
Lemma fill_step_keeps d col c v :
  d !! c = Some v ->
  match d !! col with Some _ => d | None => <[col := 0%Q]> d end !! c = Some v.
Proof.
  intros H. destruct (d !! col) eqn:E; [exact H|].
  rewrite lookup_insert_ne; [exact H|]. intros ->. congruence.
Qed.

Lemma fill_foldl_keeps cols d c v :
  d !! c = Some v ->
  foldl (fun d col => match d !! col with
                      | Some _ => d
                      | None => <[col := 0%Q]> d
                      end) d cols !! c = Some v.
Proof.
  revert d. induction cols as [|col cols IH]; intros d H; cbn [foldl].
  - exact H.
  - apply IH. now apply fill_step_keeps.
Qed.

Lemma fill_foldl_present cols d c :
  In c cols ->
  is_Some (foldl (fun d col => match d !! col with
                               | Some _ => d
                               | None => <[col := 0%Q]> d
                               end) d cols !! c).
Proof.
  revert d. induction cols as [|col cols IH]; intros d Hin; cbn [foldl].
  - destruct Hin.
  - destruct (d !! c) as [v|] eqn:Hc.
    + exists v. apply fill_foldl_keeps. now apply fill_step_keeps.
    + destruct (String.eqb_spec col c) as [->|Hne].
      * exists 0%Q. apply fill_foldl_keeps. rewrite Hc.
        apply lookup_insert_eq.
      * destruct Hin as [->|Hin]; [congruence|]. now apply IH.
Qed.

Lemma fill_missing_keeps input_data c v :
  input_data !! c = Some v -> fill_missing input_data !! c = Some v.
Proof. apply fill_foldl_keeps. Qed.

Lemma fill_missing_present input_data c :
  In c expected_columns -> is_Some (fill_missing input_data !! c).
Proof. apply fill_foldl_present. Qed.

Lemma fill_missing_default input_data c :
  In c expected_columns -> input_data !! c = None ->
  fill_missing input_data !! c = Some 0%Q.
Proof.
  intros Hin Hnone. unfold fill_missing.
  generalize expected_columns Hin. clear Hin.
  intros cols. revert input_data Hnone.
  induction cols as [|col cols IH]; intros d Hnone Hin; cbn [foldl].
  - destruct Hin.
  - destruct (String.eqb_spec col c) as [->|Hne].
    + apply fill_foldl_keeps. rewrite Hnone. apply lookup_insert_eq.
    + destruct Hin as [->|Hin]; [congruence|].
      apply IH; [|exact Hin].
      destruct (d !! col); [exact Hnone|].
      now rewrite lookup_insert_ne.
Qed.

Lemma select_columns_lookup d cols c :
  In c cols -> select_columns d cols !! c = d !! c.
Proof.
  unfold select_columns.
  induction cols as [|col cols IH]; intros Hin; [destruct Hin|].
  cbn [omap list_omap]. destruct (String.eqb_spec col c) as [->|Hne].
  - destruct (d !! c) as [v|] eqn:Hc; cbn.
    + now rewrite lookup_insert_eq.
    + destruct (in_dec String.string_dec c cols) as [Hin'|Hnin].
      * now rewrite IH.
      * apply not_elem_of_list_to_map_1. intros Hel.
        apply list_elem_of_fmap in Hel. destruct Hel as ([c' v'] & -> & Hel).
        apply list_elem_of_omap in Hel. destruct Hel as (c'' & Hc'' & Heq).
        destruct (d !! c'') eqn:E; cbn in Heq; [|discriminate].
        injection Heq as <- <-. apply Hnin. now apply list_elem_of_In.
  - destruct Hin as [->|Hin]; [congruence|].
    destruct (d !! col) as [v|]; cbn.
    + rewrite lookup_insert_ne by exact Hne. now apply IH.
    + now apply IH.
Qed.

(** On the model path every column the fallback reads is present. *)
Lemma prepared_frame_column input_data c :
  In c expected_columns ->
  exists v,
    select_columns (fill_missing input_data) expected_columns !! c = Some v /\
    (forall v0, input_data !! c = Some v0 -> v = v0) /\
    (input_data !! c = None -> v = 0%Q).
Proof.
  intros Hin. rewrite (select_columns_lookup _ _ _ Hin).
  destruct (input_data !! c) as [v0|] eqn:E.
  - exists v0. rewrite (fill_missing_keeps _ _ _ E).
    split; [reflexivity|]. split; [congruence|discriminate].
  - exists 0%Q. rewrite (fill_missing_default _ _ Hin E).
    split; [reflexivity|]. split; [discriminate|reflexivity].
Qed.

Lemma fallback_prediction_total input_data :
  is_Some (input_data !! "Age") -> is_Some (input_data !! "Duration") ->
  is_Some (input_data !! "Heart_Rate") ->
  is_Some (input_data !! "Gender_male") ->
  exists calories, fallback_prediction input_data = Returns calories.
Proof.
  intros [a Ha] [du Hd] [hr Hh] [gm Hg].
  eexists. now apply (fallback_prediction_value _ a du hr gm).
Qed.

(** Once a model has been unpickled the estimator returns for every
    row: missing columns were set to 0 before the regressor or the
    fallback reads them. *)
Lemma try_model_total model input_data :
  exists calories, try_model (Pickled model) input_data = Returns calories.
Proof.
  cbn [try_model].
  destruct (model _) as [p|]; [now exists p|].
  apply fallback_prediction_total.
  all: match goal with
       | |- is_Some (_ !! ?c) =>
           destruct (prepared_frame_column input_data c) as (v & Hv & _);
           [cbn; tauto | now exists v]
       end.
Qed.


End Estimator.

(** ** Claims about the calorie estimator *)

(** C3 (the code departs from the claim).  A row that lacks the [Age]
    column makes [predict_calories] raise [KeyError] to its caller when
    no model can be loaded: both when the model file is absent and
    cannot be trained, and when it exists but is corrupt.  The defaulting
    of missing columns is done on the model path only. *)
Theorem predict_calories_raises_without_age :
  predict_calories Sample.no_model Sample.row_without_age
    = Raises (KeyError "Age") /\
  predict_calories Sample.corrupt_model Sample.row_without_age
    = Raises (KeyError "Age") /\
  (forall model,
      exists calories,
        predict_calories {| model_pkl := Pickled model; train_model := None |}
          Sample.row_without_age = Returns calories).
Proof.
  split; [|split].
  - vm_compute. reflexivity.
  - vm_compute. reflexivity.
  - intros model. apply try_model_total.
Qed.

(** C4 (as amended).  When the four columns it reads are present, the
    fallback returns [max(0, duration * (heart_rate - 60) * 0.0175 *
    gender_factor * age_factor)] with [gender_factor] 1.2 when
    [Gender_male == 1] and 1.0 otherwise, and [age_factor] 1.0 for
    [age <= 20] and [1.0 - (age - 20) * 0.005] above; the value is never
    negative.  For a man of 25, 30 minutes at 120 bpm, it is
    [30 * 60 * 0.0175 * 1.2 * 0.975 = 36.855]; the value 37.8 is the one
    of a man of 20. *)
Theorem fallback_prediction_formula :
  (forall (input_data : frame) (a dur hr gm : Q),
      input_data !! "Age" = Some a ->
      input_data !! "Duration" = Some dur ->
      input_data !! "Heart_Rate" = Some hr ->
      input_data !! "Gender_male" = Some gm ->
      exists gender_factor age_factor calories : Q,
        fallback_prediction input_data = Returns calories /\
        ((gm == 1)%Q -> gender_factor = 12 # 10) /\
        (~ (gm == 1)%Q -> gender_factor = 1%Q) /\
        ((a <= 20)%Q -> age_factor = 1%Q) /\
        ((20 < a)%Q -> age_factor = (1 - (a - 20) * (5 # 1000))%Q) /\
        let raw :=
          (dur * (hr - 60) * (175 # 10000) * gender_factor * age_factor)%Q in
        ((0 < raw)%Q -> calories = raw) /\
        ((raw <= 0)%Q -> calories = 0%Q) /\
        (0 <= calories)%Q) /\
  (exists calories,
      fallback_prediction (Sample.row_of_age 25) = Returns calories /\
      (calories == 30 * (120 - 60) * (175 # 10000) * (12 # 10) * (975 # 1000))%Q /\
      (calories == 36855 # 1000)%Q) /\
  (exists calories,
      fallback_prediction (Sample.row_of_age 20) = Returns calories /\
      (calories == 378 # 10)%Q).
Proof.
  split; [|split].
  - intros input_data a dur hr gm Ha Hd Hh Hg.
    exists (if Py.eq gm 1 then 12 # 10 else 1%Q).
    exists (if Py.lt 20 a then (1 - (a - 20) * (5 # 1000))%Q else 1%Q).
    eexists. split; [now apply (fallback_prediction_value _ a dur hr gm)|].
    split; [|split; [|split; [|split]]].
    + intros He. apply Qeq_bool_iff in He. unfold Py.eq. now rewrite He.
    + intros Hne. unfold Py.eq. destruct (Qeq_bool gm 1) eqn:E; [|reflexivity].
      apply Qeq_bool_iff in E. contradiction.
    + intros Hle. apply PyFacts.lt_false in Hle. now rewrite Hle.
    + intros Hlt. apply PyFacts.lt_spec in Hlt. now rewrite Hlt.
    + cbv zeta. split; [|split].
      * intros Hpos. apply PyFacts.lt_spec in Hpos. unfold Py.max.
        now rewrite Hpos.
      * intros Hneg. apply PyFacts.lt_false in Hneg. unfold Py.max.
        now rewrite Hneg.
      * apply py_max_nonneg.
  - eexists. split; [vm_compute; reflexivity|]. split; reflexivity.
  - eexists. split; [vm_compute; reflexivity|]. reflexivity.
Qed.

Lemma fallback_prediction_formula_witness :
  exists gender_factor age_factor calories : Q,
    fallback_prediction (Sample.row_of_age 25) = Returns calories /\
    gender_factor = 12 # 10 /\
    age_factor = (1 - (25 - 20) * (5 # 1000))%Q /\
    (0 <= calories)%Q.
Proof.
  destruct fallback_prediction_formula as [H _].
  destruct (H (Sample.row_of_age 25) 25%Q 30%Q 120%Q 1%Q
              eq_refl eq_refl eq_refl eq_refl)
    as (gf & af & c & Hc & Hgf & _ & _ & Haf & _ & _ & Hpos).
  exists gf, af, c. split; [exact Hc|]. split; [|split].
  - apply Hgf. reflexivity.
  - apply Haf. reflexivity.
  - exact Hpos.
Defined.

(** C4, the worked example of the claim fails: for a man of 25 the
    fallback does not return 37.8, because the age factor at 25 is 0.975
    and not 1.0. *)
Lemma fallback_prediction_at_25_is_not_37_8 :
  exists calories,
    fallback_prediction (Sample.row_of_age 25) = Returns calories /\
    ~ (calories == 30 * (120 - 60) * (175 # 10000) * (12 # 10) * 1)%Q /\
    ~ (calories == 378 # 10)%Q.
Proof.
  eexists. split; [vm_compute; reflexivity|]. split; discriminate.
Qed.

(** ** The stable sort *)

Section SortBy.

Context {A : Type} (le : A -> A -> bool).

Lemma insert_sorted_perm x l : Permutation (insert_sorted le x l) (x :: l).
Proof.
  induction l as [|y l IH]; cbn [insert_sorted]; [reflexivity|].
  destruct (le x y); [reflexivity|].
  rewrite IH. apply perm_swap.
Qed.

Lemma sort_by_perm l : Permutation (sort_by le l) l.
Proof.
  induction l as [|x l IH]; cbn; [reflexivity|].
  fold (sort_by le l). rewrite insert_sorted_perm. now constructor.
Qed.

Lemma sort_by_In l x : In x (sort_by le l) <-> In x l.
Proof.
  split; apply Permutation_in; [|symmetry]; apply sort_by_perm.
Qed.

Lemma sort_by_length l : length (sort_by le l) = length l.
Proof. apply Permutation_length, sort_by_perm. Qed.

Hypothesis le_total : forall x y, le x y = true \/ le y x = true.

Lemma insert_sorted_sorted x l :
  Sorted (fun a b => le a b = true) l ->
  Sorted (fun a b => le a b = true) (insert_sorted le x l).
Proof.
  induction l as [|y l IH]; intros Hs; cbn [insert_sorted].
  - repeat constructor.
  - destruct (le x y) eqn:E.
    + constructor; [exact Hs|]. now constructor.
    + apply Sorted_inv in Hs. destruct Hs as [Hs Hhd].
      constructor; [now apply IH|].
      assert (Hyx : le y x = true).
      { destruct (le_total x y) as [H|H]; [congruence|exact H]. }
      destruct l as [|z l]; cbn [insert_sorted].
      * now constructor.
      * destruct (le x z); constructor; [exact Hyx|].
        now apply HdRel_inv in Hhd.
Qed.

Lemma sort_by_sorted l : Sorted (fun a b => le a b = true) (sort_by le l).
Proof.
  induction l as [|x l IH]; cbn; [constructor|].
  now apply insert_sorted_sorted.
Qed.

End SortBy.

(** Lexicographic order on date strings. *)
Lemma string_leb_total (s1 s2 : string) :
  String.leb s1 s2 = true \/ String.leb s2 s1 = true.
Proof. apply String.leb_total. Qed.

Lemma string_leb_lt (s1 s2 : string) :
  String.leb s1 s2 = true -> s1 <> s2 -> String.ltb s1 s2 = true.
Proof.
  unfold String.leb, String.ltb. intros Hle Hne.
  destruct (String.compare s1 s2) eqn:E; try reflexivity; try discriminate.
  apply String.compare_eq_iff in E. contradiction.
Qed.

(** ** Rounding *)



(** ** Claims about the formula library *)



(** C8 (as amended).  With direction "loss" [calories_to_weight] returns
    [|calories| / 7700]; with any other direction it returns
    [calories / 7700], sign included, which is the magnitude exactly
    when [calories] is not negative. *)
Theorem calories_to_weight_by_direction (calories : Q) (direction : string) :
  (direction = "loss" ->
     calories_to_weight calories direction = (Qabs calories / 7700)%Q) /\
  (direction <> "loss" ->
     calories_to_weight calories direction = (calories / 7700)%Q) /\
  ((0 <= calories)%Q ->
     (calories_to_weight calories direction == Qabs calories / 7700)%Q) /\
  (direction <> "loss" -> (calories < 0)%Q ->
     (calories_to_weight calories direction < 0)%Q).
Proof.
  unfold calories_to_weight. split; [|split; [|split]].
  - intros ->. reflexivity.
  - intros Hne. apply String.eqb_neq in Hne. now rewrite Hne.
  - intros Hpos. unfold Py.abs.
    destruct (String.eqb direction "loss"); [reflexivity|].
    now rewrite (Qabs_pos _ Hpos).
  - intros Hne Hneg. apply String.eqb_neq in Hne. rewrite Hne.
    unfold Qdiv. apply Qlt_le_trans with (0 * / 7700)%Q.
    + apply Qmult_lt_compat_r; [reflexivity | exact Hneg].
    + discriminate.
Qed.

Lemma calories_to_weight_by_direction_witness :
  calories_to_weight (-3850) "loss" = (Qabs (-3850) / 7700)%Q /\
  calories_to_weight (-3850) "gain" = (-3850 / 7700)%Q /\
  (calories_to_weight 3850 "gain" == Qabs 3850 / 7700)%Q /\
  (calories_to_weight (-3850) "gain" < 0)%Q.
Proof.
  split; [|split; [|split]].
  - apply (calories_to_weight_by_direction (-3850) "loss"). reflexivity.
  - apply (calories_to_weight_by_direction (-3850) "gain"). discriminate.
  - apply (calories_to_weight_by_direction 3850 "gain"). discriminate.
  - apply (calories_to_weight_by_direction (-3850) "gain");
      [discriminate | reflexivity].
Defined.

(** C8, the claim as worded fails: with direction "gain" a negative
    calorie amount comes back negative, so the sign of the result does
    carry the direction and the result is not the magnitude. *)
Lemma calories_to_weight_gain_keeps_sign :
  (calories_to_weight (-7700) "gain" == -1)%Q /\
  ~ (calories_to_weight (-7700) "gain" == Qabs (-7700) / 7700)%Q.
Proof. split; [reflexivity | discriminate]. Qed.

(** ** Consistency score *)

Lemma last_cons {A} (y : A) (l : list A) (d : A) :
  List.last (y :: l) d = List.last l y.
Proof.
  revert y d. induction l as [|z l IH]; intros y d; [reflexivity|].
  change (List.last (y :: z :: l) d) with (List.last (z :: l) d).
  now rewrite (IH z d), (IH z y).
Qed.

Lemma sorted_dates_bounds (l : list Z) :
  StronglySorted (fun a b => Z.leb a b = true) l ->
  forall first rest, l = first :: rest ->
  forall d, In d l -> (first <= d <= List.last rest first)%Z.
Proof.
  induction 1 as [|x l Hss IH Hall]; intros first rest Heq d Hin;
    [discriminate|].
  injection Heq as -> ->.
  destruct rest as [|y rest'].
  - destruct Hin as [->|[]]. cbn. lia.
  - rewrite last_cons.
    assert (Hfy : (first <= y)%Z).
    { apply Forall_inv in Hall. now apply Z.leb_le. }
    specialize (IH y rest' eq_refl).
    pose proof (IH y (or_introl eq_refl)) as Hy.
    destruct Hin as [->|Hin].
    + lia.
    + specialize (IH d Hin). lia.
Qed.

Lemma sort_dates_strongly_sorted (dates : list Z) :
  StronglySorted (fun a b => Z.leb a b = true) (sort_by Z.leb dates).
Proof.
  apply Sorted_StronglySorted.
  - intros a b c Hab Hbc. apply Z.leb_le in Hab, Hbc. apply Z.leb_le. lia.
  - apply sort_by_sorted. intros x y.
    destruct (Z.leb_spec x y); [now left|right]. apply Z.leb_le. lia.
Qed.

(** The first and the last element of the sorted dates are the earliest
    and the latest workout date. *)
Lemma sorted_dates_extremes (dates : list Z) first rest :
  sort_by Z.leb dates = first :: rest ->
  In first dates /\ In (List.last rest first) dates /\
  (forall d, In d dates -> (first <= d <= List.last rest first)%Z).
Proof.
  intros Hs.
  pose proof (sort_dates_strongly_sorted dates) as Hss.
  pose proof (sorted_dates_bounds _ Hss first rest Hs) as Hb.
  assert (Hlast : In (List.last rest first) (first :: rest)).
  { destruct rest as [|y rest']; [now left|].
    rewrite last_cons. right.
    clear. revert y. induction rest' as [|z r IH]; intros y; [now left|].
    rewrite last_cons. right. apply IH. }
  split; [|split].
  - apply (sort_by_In Z.leb). rewrite Hs. now left.
  - apply (sort_by_In Z.leb). now rewrite Hs.
  - intros d Hd. apply Hb. now apply sort_by_In.
Qed.

Lemma py_min_100_bounds (x : Q) :
  (0 <= x)%Q -> (0 <= Py.min 100 x <= 100)%Q.
Proof.
  intros Hx. unfold Py.min. destruct (Py.lt x 100) eqn:E.
  - apply PyFacts.lt_spec in E. split; [exact Hx | now apply Qlt_le_weak].
  - split; discriminate.
Qed.

Lemma ratio_nonneg (actual ideal : Q) :
  (0 <= actual)%Q -> (0 < ideal)%Q -> (0 <= actual / ideal * 100)%Q.
Proof.
  intros Ha Hi. apply Qmult_le_0_compat; [|discriminate].
  apply Qle_shift_div_l; [exact Hi|]. now rewrite Qmult_0_l.
Qed.

Lemma count_nonneg {A} (l : list A) : (0 <= inject_Z (Z.of_nat (length l)))%Q.
Proof.
  change 0%Q with (inject_Z 0). rewrite <- Zle_Qle. lia.
Qed.

(** C5.  The score is 0 for an empty history.  Otherwise, with
    [span_days] the number of days from the earliest to the latest
    workout date, both included, and [ideal = span_days / 7 *
    target_weekly_frequency], the score is
    [min(100, actual_count / ideal * 100)] when [ideal > 0] and 0 when
    [ideal <= 0].  It always lies between 0 and 100.  Three workouts
    spanning 7 days with a weekly target of 3 score 100, and the formula
    gives 0 for a count of 0. *)
Theorem consistency_score_spec :
  (forall profile dates,
      (0 <= consistency_score profile dates <= 100)%Q) /\
  (forall profile, consistency_score profile [] = 0%Q) /\
  (forall profile dates, dates <> [] ->
     exists first last : Z,
       In first dates /\ In last dates /\
       (forall d, In d dates -> (first <= d <= last)%Z) /\
       let span_days := (last - first + 1)%Z in
       let ideal :=
         (inject_Z span_days / 7 * default 3 (workout_frequency profile))%Q in
       let actual_count := inject_Z (Z.of_nat (length dates)) in
       let ratio := (actual_count / ideal * 100)%Q in
       ((ideal <= 0)%Q -> consistency_score profile dates = 0%Q) /\
       ((0 < ideal)%Q ->
          consistency_score profile dates = Py.min 100 ratio /\
          ((ratio < 100)%Q -> consistency_score profile dates = ratio) /\
          ((100 <= ratio)%Q -> consistency_score profile dates = 100%Q))) /\
  (consistency_score
     {| age := 30; gender := "Male"; height := 170; weight := 70;
        workout_frequency := Some 3%Q |}
     [19799; 19793; 19796]%Z == 100)%Q /\
  (Py.min 100 (0 / (7 / 7 * 3) * 100) == 0)%Q.
Proof.
  split; [|split; [|split; [|split]]].
  - intros profile dates. unfold consistency_score.
    destruct (sort_by Z.leb dates) as [|first rest]; [split; discriminate|].
    cbv zeta. destruct (Py.lt 0 _) eqn:E; [|split; discriminate].
    apply PyFacts.lt_spec in E.
    apply py_min_100_bounds, ratio_nonneg; [apply count_nonneg | exact E].
  - reflexivity.
  - intros profile dates Hne. unfold consistency_score.
    destruct (sort_by Z.leb dates) as [|first rest] eqn:Hs.
    { exfalso. apply Hne. apply Permutation_nil.
      rewrite <- Hs. apply sort_by_perm. }
    destruct (sorted_dates_extremes dates first rest Hs) as (Hf & Hl & Hb).
    exists first, (List.last rest first).
    split; [exact Hf|]. split; [exact Hl|]. split; [exact Hb|].
    cbv zeta. split.
    + intros Hle. apply PyFacts.lt_false in Hle. now rewrite Hle.
    + intros Hpos. apply PyFacts.lt_spec in Hpos. rewrite Hpos.
      split; [reflexivity|]. unfold Py.min. split.
      * intros Hlt. apply PyFacts.lt_spec in Hlt. now rewrite Hlt.
      * intros Hge. apply PyFacts.lt_false in Hge. now rewrite Hge.
  - vm_compute. reflexivity.
  - vm_compute. reflexivity.
Qed.

Lemma consistency_score_spec_witness :
  exists first last : Z,
    In first [19799; 19793; 19796]%Z /\ In last [19799; 19793; 19796]%Z /\
    (forall d, In d [19799; 19793; 19796]%Z -> (first <= d <= last)%Z).
Proof.
  destruct consistency_score_spec as (_ & _ & H & _).
  destruct (H Sample.profile [19799; 19793; 19796]%Z) as (f & l & Hf & Hl & Hb & _).
  - discriminate.
  - exists f, l. split; [exact Hf|]. split; [exact Hl|exact Hb].
Defined.

(** ** The date-keyed dict *)

Section Upsert.

Context {A : Type} (key : A -> string) (init : string -> A).
Hypothesis key_init : forall k, key (init k) = k.

Lemma upsert_keys_present f k d :
  keeps_key key f -> In k (map key d) ->
  map key (upsert key init f k d) = map key d.
Proof.
  intros Hf. induction d as [|e d IH]; intros Hin; [destruct Hin|].
  cbn [upsert]. destruct (String.eqb_spec (key e) k) as [Hk|Hk].
  - cbn. now rewrite Hf.
  - cbn. f_equal. apply IH. destruct Hin as [Hin|Hin]; [contradiction|exact Hin].
Qed.

Lemma upsert_keys_fresh f k d :
  keeps_key key f -> ~ In k (map key d) ->
  map key (upsert key init f k d) = (map key d ++ [k])%list.
Proof.
  intros Hf. induction d as [|e d IH]; intros Hnin.
  - cbn. now rewrite Hf, key_init.
  - cbn [upsert]. destruct (String.eqb_spec (key e) k) as [Hk|Hk].
    + exfalso. apply Hnin. now left.
    + cbn. f_equal. apply IH. intros Hin. apply Hnin. now right.
Qed.

Lemma upsert_entries f k d e' :
  NoDup (map key d) -> In e' (upsert key init f k d) ->
  (In e' d /\ key e' <> k) \/
  (exists e, In e d /\ key e = k /\ e' = f e) \/
  (~ In k (map key d) /\ e' = f (init k)).
Proof.
  induction d as [|e d IH]; intros Hnd Hin.
  - destruct Hin as [<-|[]]. right. right. split; [intros []|reflexivity].
  - cbn [upsert] in Hin. cbn [map] in Hnd. apply NoDup_cons in Hnd.
    destruct Hnd as [Hfresh Hnd].
    destruct (String.eqb_spec (key e) k) as [Hk|Hk].
    + destruct Hin as [<-|Hin].
      * right. left. exists e. split; [now left|]. now split.
      * left. split; [now right|]. intros Hk'. apply Hfresh.
        rewrite Hk, <- Hk'. apply list_elem_of_In, in_map.
        exact Hin.
    + destruct Hin as [<-|Hin].
      * left. split; [now left|exact Hk].
      * destruct (IH Hnd Hin) as [[H1 H2]|[(e0 & H1 & H2 & H3)|[H1 H2]]].
        -- left. split; [now right|exact H2].
        -- right. left. exists e0. split; [now right|]. now split.
        -- right. right. split; [|exact H2].
           intros [Heq|Hin']; [now apply Hk|now apply H1].
Qed.

Lemma filter_key_absent k (ops : list (string * (A -> A))) :
  ~ In k (map fst ops) ->
  List.filter (fun op => String.eqb (fst op) k) ops = [].
Proof.
  induction ops as [|op ops IH]; intros Hnin; [reflexivity|].
  cbn. destruct (String.eqb_spec (fst op) k) as [Hk|Hk].
  - exfalso. apply Hnin. now left.
  - apply IH. intros Hin. apply Hnin. now right.
Qed.

Lemma replay_snoc_other k k' f ops :
  k' <> k -> replay init k (ops ++ [(k', f)])%list = replay init k ops.
Proof.
  intros Hne. unfold replay. rewrite List.filter_app. cbn.
  apply String.eqb_neq in Hne. rewrite Hne. now rewrite app_nil_r.
Qed.

Lemma replay_snoc_same k f ops :
  replay init k (ops ++ [(k, f)])%list = f (replay init k ops).
Proof.
  unfold replay. rewrite List.filter_app. cbn. rewrite String.eqb_refl.
  now rewrite foldl_app.
Qed.

Lemma run_ops_snoc d0 ops op :
  run_ops key init d0 (ops ++ [op])%list
  = upsert key init (snd op) (fst op) (run_ops key init d0 ops).
Proof. unfold run_ops. now rewrite foldl_app. Qed.

(** After any run of operations starting from the empty dict: one
    entry per date that occurs in the run, and each entry is the
    replay of the operations addressed to its date. *)
Theorem run_ops_spec (ops : list (string * (A -> A))) :
  Forall (fun op => keeps_key key (snd op)) ops ->
  let d := run_ops key init [] ops in
  NoDup (map key d) /\
  (forall k, In k (map key d) <-> In k (map fst ops)) /\
  (forall e, In e d -> e = replay init (key e) ops).
Proof.
  induction ops as [|[k f] ops IH] using rev_ind; intros Hall.
  - cbn. split; [constructor|]. split; [tauto|intros e []].
  - apply Forall_app in Hall. destruct Hall as [Hall Hop].
    apply Forall_inv in Hop. cbn [snd] in Hop.
    specialize (IH Hall). cbv zeta in IH. destruct IH as (Hnd & Hkeys & Hval).
    cbv zeta. rewrite run_ops_snoc. cbn [fst snd].
    set (d := run_ops key init [] ops) in *.
    destruct (in_dec String.string_dec k (map key d)) as [Hin|Hnin].
    + rewrite (upsert_keys_present f k d Hop Hin).
      split; [exact Hnd|]. split.
      * intros k'. rewrite Hkeys, map_app, in_app_iff. cbn.
        split; [tauto|]. intros [H|[<-|[]]]; [exact H|]. now apply Hkeys.
      * intros e' He'.
        destruct (upsert_entries f k d e' Hnd He')
          as [[H1 H2]|[(e0 & H1 & H2 & ->)|[H1 _]]].
        -- rewrite replay_snoc_other by congruence. now apply Hval.
        -- rewrite Hop, H2, replay_snoc_same. f_equal.
           rewrite <- H2. now apply Hval.
        -- contradiction.
    + rewrite (upsert_keys_fresh f k d Hop Hnin).
      split; [|split].
      * apply NoDup_app. split; [exact Hnd|]. split.
        -- intros x Hx [->|[]]%list_elem_of_In. apply Hnin.
           now apply list_elem_of_In.
        -- apply NoDup_singleton.
      * intros k'. rewrite map_app, !in_app_iff, Hkeys. cbn. tauto.
      * intros e' He'.
        destruct (upsert_entries f k d e' Hnd He')
          as [[H1 H2]|[(e0 & H1 & H2 & ->)|[_ ->]]].
        -- rewrite replay_snoc_other by congruence. now apply Hval.
        -- exfalso. apply Hnin. rewrite <- H2. now apply in_map.
        -- rewrite Hop, key_init, replay_snoc_same. f_equal.
           unfold replay. rewrite filter_key_absent; [reflexivity|].
           intros Hk. apply Hnin. now apply Hkeys.
Qed.

End Upsert.

(** ** Sorting entries by their date *)

Section SortByDate.

Context {A : Type} (key : A -> string).

Local Abbreviation le_key := (fun x y => String.leb (key x) (key y)).
Local Abbreviation has_key k := (fun x => String.eqb (key x) k).




Lemma sort_by_date_sorted l :
  Sorted (fun x y => String.leb (key x) (key y) = true) (sort_by le_key l).
Proof.
  apply (sort_by_sorted le_key). intros x y. apply String.leb_total.
Qed.

(** With one entry per date the order is strict. *)
Lemma sorted_strict l :
  Sorted (fun x y => String.leb (key x) (key y) = true) l ->
  NoDup (map key l) ->
  Sorted (fun x y => String.ltb (key x) (key y) = true) l.
Proof.
  induction 1 as [|x l Hs IH Hhd]; intros Hnd; [constructor|].
  cbn [map] in Hnd. apply NoDup_cons in Hnd. destruct Hnd as [Hx Hnd].
  constructor; [now apply IH|].
  destruct Hhd as [|y l Hxy]; constructor.
  apply string_leb_lt; [exact Hxy|].
  intros Heq. apply Hx. rewrite Heq. now left.
Qed.

Lemma sort_by_date_keys l :
  Permutation (map key (sort_by le_key l)) (map key l).
Proof. apply Permutation_map, sort_by_perm. Qed.

End SortByDate.

(** ** Nutrition history *)

Lemma aggregate_run (d0 : list day_totals) (logs : list meal) :
  foldl (fun aggregated_data log =>
           upsert dt_date empty_totals (add_meal log) (m_date log)
                  aggregated_data) d0 logs
  = run_ops dt_date empty_totals d0 (map meal_op logs).
Proof.
  unfold run_ops. revert d0.
  induction logs as [|log logs IH]; intros d0; [reflexivity|].
  cbn. apply IH.
Qed.

(** The replayed entry of a date holds, field by field, the in-order
    sums over that date's meals. *)
Lemma replay_meals (k : string) (logs : list meal) (t : day_totals) :
  let t' := foldl (fun e op => snd op e) t
              (List.filter (fun op => String.eqb (fst op) k)
                           (map meal_op logs)) in
  let todays := List.filter (fun log => String.eqb (m_date log) k) logs in
  dt_date t' = dt_date t /\
  dt_calories t' = foldl Qplus (dt_calories t) (map m_calories todays) /\
  dt_protein t' = foldl Qplus (dt_protein t) (map m_protein todays) /\
  dt_carbs t' = foldl Qplus (dt_carbs t) (map m_carbs todays) /\
  dt_fat t' = foldl Qplus (dt_fat t) (map m_fat todays).
Proof.
  revert t. induction logs as [|log logs IH]; intros t; [now cbn|].
  cbn [map List.filter meal_op fst].
  destruct (String.eqb (m_date log) k); [|apply IH].
  cbn [foldl map snd]. apply (IH (add_meal log t)).
Qed.

(** C10.  With [days=None] the call returns the stored meal entries as
    they are, one record per meal in insertion order.  With an integer
    [days] it returns the other shape: per-day records, at most one per
    date and exactly the dates of the meals on or after the cutoff, each
    holding for calories, protein, carbs and fat the sum over that date's
    meals on or after the cutoff, listed in strictly ascending date
    order. *)
Theorem get_nutrition_history_asymmetric (cutoff_date : Z -> string)
    (st : Store) :
  get_nutrition_history cutoff_date st None
    = Meals (load_data (nutrition_logs_json st) []) /\
  (forall days : Z,
     exists result,
       get_nutrition_history cutoff_date st (Some days) = Daily result /\
       let kept :=
         List.filter (fun log => String.leb (cutoff_date days) (m_date log))
                     (load_data (nutrition_logs_json st) []) in
       NoDup (map dt_date result) /\
       (forall d, In d (map dt_date result) <-> In d (map m_date kept)) /\
       (forall t, In t result ->
          let todays :=
            List.filter (fun log => String.eqb (m_date log) (dt_date t)) kept in
          dt_calories t = sum_in_order (map m_calories todays) /\
          dt_protein t = sum_in_order (map m_protein todays) /\
          dt_carbs t = sum_in_order (map m_carbs todays) /\
          dt_fat t = sum_in_order (map m_fat todays)) /\
       Sorted (fun x y => String.ltb (dt_date x) (dt_date y) = true) result).
Proof.
  split; [reflexivity|]. intros days. eexists. split; [reflexivity|].
  cbv zeta.
  set (kept := List.filter _ (load_data (nutrition_logs_json st) [])).
  unfold aggregate. rewrite aggregate_run.
  assert (Hkeep : Forall (fun op => keeps_key dt_date (snd op))
                         (map meal_op kept)).
  { apply Forall_forall. intros op Hop. apply list_elem_of_In in Hop.
    apply in_map_iff in Hop.
    destruct Hop as (log & <- & _). intros e. reflexivity. }
  destruct (run_ops_spec dt_date empty_totals (fun k => eq_refl)
              (map meal_op kept) Hkeep) as (Hnd & Hkeys & Hval).
  set (d := run_ops dt_date empty_totals [] (map meal_op kept)) in *.
  assert (Hperm : Permutation (map dt_date (sort_by
                     (fun x y => String.leb (dt_date x) (dt_date y)) d))
                   (map dt_date d)) by apply sort_by_date_keys.
  assert (Hnd' : NoDup (map dt_date (sort_by
                     (fun x y => String.leb (dt_date x) (dt_date y)) d))).
  { rewrite Hperm. exact Hnd. }
  split; [exact Hnd'|]. split; [|split].
  - assert (Hfst : map fst (map meal_op kept) = map m_date kept)
      by now rewrite List.map_map.
    rewrite Hfst in Hkeys. intros k. rewrite <- Hkeys. split.
    + apply Permutation_in. exact Hperm.
    + apply Permutation_in. symmetry. exact Hperm.
  - intros t Ht. apply sort_by_In in Ht. apply Hval in Ht.
    destruct (replay_meals (dt_date t) kept (empty_totals (dt_date t)))
      as (_ & Hc & Hp & Hcb & Hf).
    unfold replay in Ht. rewrite <- Ht in Hc, Hp, Hcb, Hf.
    cbv zeta. unfold sum_in_order. now rewrite Hc, Hp, Hcb, Hf.
  - apply sorted_strict; [apply sort_by_date_sorted | exact Hnd'].
Qed.

(** ** Energy balance *)









(** ** Claims about the aggregator *)



Lemma update_goal_progress_frame_witness :
  update_goal_progress "2024-03-10" Sample.store "calories_burned" 300
    = (false, Sample.store) /\
  get_goals (snd (update_goal_progress "2024-03-10" Sample.store
                    "workout_count" 1)) !! 1%nat = Some Sample.marathon.
Proof.
  split.
  - apply (update_goal_progress_frame "2024-03-10" Sample.store
             "calories_burned" 300).
    intros g [<-|[<-|[]]] [H1 H2]; discriminate.
  - apply (update_goal_progress_frame "2024-03-10" Sample.store
             "workout_count" 1); [reflexivity|].
    intros [H1 H2]. discriminate.
Defined.

Lemma get_nutrition_history_asymmetric_witness :
  get_nutrition_history Sample.cutoff_date Sample.fed_store None
    = Meals Sample.meals /\
  exists result,
    get_nutrition_history Sample.cutoff_date Sample.fed_store (Some 7%Z)
      = Daily result /\
    NoDup (map dt_date result) /\
    Sorted (fun x y => String.ltb (dt_date x) (dt_date y) = true) result.
Proof.
  destruct (get_nutrition_history_asymmetric Sample.cutoff_date
              Sample.fed_store) as [Hnone Hdays].
  split; [exact Hnone|].
  destruct (Hdays 7%Z) as (result & Hrun & Hnd & _ & _ & Hsorted).
  exists result. split; [exact Hrun|]. split; [exact Hnd|exact Hsorted].
Defined.

(** ** Worked examples *)

(** Two meals of 2 March are added up, the meal of 1 February falls
    before the 7-day cutoff, and the days come out in date order. *)
Example nutrition_history_last_week :
  get_nutrition_history Sample.cutoff_date Sample.fed_store (Some 7%Z)
  = Daily [ {| dt_date := "2024-03-01"; dt_calories := 0 + 700;
               dt_protein := 0 + 30; dt_carbs := 0 + 90; dt_fat := 0 + 20 |};
            {| dt_date := "2024-03-02"; dt_calories := 0 + 400 + 600;
               dt_protein := 0 + 20 + 25; dt_carbs := 0 + 50 + 60;
               dt_fat := 0 + 10 + 15 |} ].
Proof. reflexivity. Qed.

(** 3 March has workouts only, 1 March and 1 February meals only; the
    net series drops 1 February, which is before the cutoff. *)
Example energy_balance_sample :
  energy_balance "2024-02-25" Sample.quick_saved Sample.meals
  = Returns (Some
      ([ {| date := "2024-02-01"; burned := 0; consumed := 0 + 100 |};
         {| date := "2024-03-01"; burned := 0; consumed := 0 + 700 |};
         {| date := "2024-03-02"; burned := 0 + 150; consumed := 0 + 400 + 600 |};
         {| date := "2024-03-03"; burned := 0 + 250 + 50; consumed := 0 |} ],
       [ {| n_date := "2024-03-01"; net := 0 + 700 - 0 |};
         {| n_date := "2024-03-02"; net := 0 + 400 + 600 - (0 + 150) |};
         {| n_date := "2024-03-03"; net := 0 - (0 + 250 + 50) |} ])).
Proof. reflexivity. Qed.

(** A history holding a workout logged from the Workout Tracker form
    stops the block with a [KeyError]. *)
Example energy_balance_tracker_entry :
  energy_balance "2024-02-25"
    [ {| w_date := "2024-03-01"; w_duration := 30; w_heart_rate := 120;
         w_body_temp := 37; w_calories_burned := Some (3591 # 100);
         w_calories := None |} ]
    Sample.meals
  = Raises (KeyError "calories").
Proof. reflexivity. Qed.

(** * Further properties of the code *)

(** ** Deleting and adding goals *)

Lemma is_goal_spec goal_name date_ g :
  is_goal goal_name date_ g = true <->
  name g = goal_name /\ target_date g = date_.
Proof.
  unfold is_goal. rewrite andb_true_iff, !String.eqb_eq. reflexivity.
Qed.

Lemma is_goal_false goal_name date_ g :
  is_goal goal_name date_ g = false <->
  ~ (name g = goal_name /\ target_date g = date_).
Proof.
  rewrite <- is_goal_spec. destruct (is_goal goal_name date_ g);
    split; congruence.
Qed.

Lemma delete_first_miss goal_name date_ goals :
  (forall g, In g goals -> is_goal goal_name date_ g = false) ->
  delete_first goal_name date_ goals = None.
Proof.
  induction goals as [|g rest IH]; intros H; [reflexivity|].
  cbn. rewrite (H g (or_introl eq_refl)).
  rewrite IH; [reflexivity|]. intros x Hx. apply H. now right.
Qed.

Lemma delete_first_hit goal_name date_ before g after :
  (forall x, In x before -> is_goal goal_name date_ x = false) ->
  is_goal goal_name date_ g = true ->
  delete_first goal_name date_ (before ++ g :: after)%list
  = Some (before ++ after)%list.
Proof.
  intros Hb Hg. induction before as [|x before IH]; cbn.
  - now rewrite Hg.
  - rewrite (Hb x (or_introl eq_refl)).
    rewrite IH; [reflexivity|]. intros y Hy. apply Hb. now right.
Qed.

(** The first entry that passes a test splits the list around it. *)
Lemma first_hit_split (test : goal -> bool) (goals : list goal) :
  (forall g, In g goals -> test g = false) \/
  (exists before g after,
      goals = (before ++ g :: after)%list /\ test g = true /\
      forall x, In x before -> test x = false).
Proof.
  induction goals as [|g rest IH]; [left; intros ? []|].
  destruct (test g) eqn:Hg.
  - right. exists [], g, rest. split; [reflexivity|].
    split; [exact Hg|intros ? []].
  - destruct IH as [Hnone|(before & h & after & -> & Hh & Hb)].
    + left. intros x [<-|Hx]; [exact Hg|now apply Hnone].
    + right. exists (g :: before), h, after. split; [reflexivity|].
      split; [exact Hh|]. intros x [<-|Hx]; [exact Hg|now apply Hb].
Qed.

(** X1.  Deleting a (name, target date) pair that no stored goal carries
    returns [False] and leaves the store exactly as it was: nothing is
    written, not even when [goals.json] does not exist yet. *)
Theorem delete_goal_not_found (st : Store) (goal_name date_ : string) :
  (forall g, In g (get_goals st) ->
             ~ (name g = goal_name /\ target_date g = date_)) ->
  delete_goal st goal_name date_ = (false, st).
Proof.
  intros H. unfold delete_goal. fold (get_goals st).
  rewrite delete_first_miss; [reflexivity|].
  intros g Hg. apply is_goal_false. now apply H.
Qed.

Lemma delete_goal_not_found_witness :
  delete_goal Sample.store "Marathon" "2024-12-31" = (false, Sample.store).
Proof.
  apply delete_goal_not_found.
  intros g [<-|[<-|[]]] [H1 H2]; discriminate.
Defined.

(** X2.  When some stored goal carries the pair, [delete_goal] returns
    [True] and, the file being writable, stores the collection without
    the first such goal: the goals before it and after it stay, in their
    order, including later goals with the same name and target date.
    The other files are not touched. *)
Theorem delete_goal_removes_first (st : Store) (goal_name date_ : string)
    (before after : list goal) (g : goal) :
  writable st = true ->
  get_goals st = (before ++ g :: after)%list ->
  name g = goal_name -> target_date g = date_ ->
  (forall x, In x before -> ~ (name x = goal_name /\ target_date x = date_)) ->
  let result := delete_goal st goal_name date_ in
  fst result = true /\
  get_goals (snd result) = (before ++ after)%list /\
  workout_history_json (snd result) = workout_history_json st /\
  nutrition_logs_json (snd result) = nutrition_logs_json st.
Proof.
  intros Hw Hgoals Hn Hd Hb. cbv zeta. unfold delete_goal.
  fold (get_goals st). rewrite Hgoals.
  rewrite delete_first_hit.
  - cbn [fst snd]. unfold save_data. rewrite Hw. cbn. auto.
  - intros x Hx. apply is_goal_false. now apply Hb.
  - now apply is_goal_spec.
Qed.

Lemma delete_goal_removes_first_witness :
  get_goals (snd (delete_goal Sample.store "Marathon" "2024-02-29"))
  = [Sample.first_workout].
Proof.
  apply (delete_goal_removes_first Sample.store "Marathon" "2024-02-29"
           [Sample.first_workout] [] Sample.marathon);
    try reflexivity.
  intros x [<-|[]] [H1 H2]. discriminate.
Defined.

(** X3.  A failed write is reported by [add_goal] only.  On a store that
    cannot be written, [add_goal] returns [False]; [delete_goal] returns
    [True] as soon as a goal carries the pair, and [update_goal_progress]
    returns [True] as soon as a goal matches, although in all three
    cases the store is left unchanged. *)
Theorem write_failure_reporting (today : string) (st : Store) :
  writable st = false ->
  (forall goal_data, add_goal st goal_data = (false, st)) /\
  (forall goal_name date_ g,
      In g (get_goals st) -> name g = goal_name -> target_date g = date_ ->
      delete_goal st goal_name date_ = (true, st)) /\
  (forall goal_type amount g,
      In g (get_goals st) -> status g = "active" -> type g = goal_type ->
      update_goal_progress today st goal_type amount = (true, st)).
Proof.
  intros Hw. split; [|split].
  - intros goal_data. unfold add_goal, save_data. now rewrite Hw.
  - intros goal_name date_ g Hin Hn Hd. unfold delete_goal.
    fold (get_goals st).
    destruct (first_hit_split (is_goal goal_name date_) (get_goals st))
      as [Hnone|(before & h & after & Heq & Hh & Hb)].
    + exfalso. specialize (Hnone g Hin). apply is_goal_false in Hnone.
      now apply Hnone.
    + rewrite Heq, (delete_first_hit _ _ _ _ _ Hb Hh).
      now rewrite save_data_readonly.
  - intros goal_type amount g Hin Hs Ht.
    rewrite update_goal_progress_unfold.
    assert (Hex : existsb (matches goal_type) (get_goals st) = true).
    { apply existsb_exists. exists g. split; [exact Hin|].
      now apply matches_spec. }
    rewrite Hex. now rewrite save_data_readonly.
Qed.

Lemma write_failure_reporting_witness :
  add_goal Fixture.read_only Sample.marathon = (false, Fixture.read_only) /\
  delete_goal Fixture.read_only "First workout" "2024-03-31"
    = (true, Fixture.read_only) /\
  update_goal_progress "2024-03-10" Fixture.read_only "workout_count" 1
    = (true, Fixture.read_only).
Proof.
  destruct (write_failure_reporting "2024-03-10" Fixture.read_only eq_refl)
    as (Ha & Hd & Hu).
  split; [apply Ha|]. split.
  - apply (Hd _ _ Sample.first_workout); [now left | reflexivity | reflexivity].
  - apply (Hu _ _ Sample.first_workout); [now left | reflexivity | reflexivity].
Defined.

(** X4.  Adding a goal stores it at the end of the collection (a missing
    [goals.json] counts as empty), and deleting it again by its name and
    target date gives back the collection as it was, provided no earlier
    goal carries the same pair; if one does, it is the earlier goal that
    is deleted and the new one stays. *)
Theorem add_then_delete_goal (st : Store) (goal_data : goal) :
  writable st = true ->
  let st1 := snd (add_goal st goal_data) in
  fst (add_goal st goal_data) = true /\
  get_goals st1 = (get_goals st ++ [goal_data])%list /\
  ((forall g, In g (get_goals st) ->
              ~ (name g = name goal_data /\
                 target_date g = target_date goal_data)) ->
   get_goals (snd (delete_goal st1 (name goal_data) (target_date goal_data)))
   = get_goals st) /\
  (forall before g after,
      get_goals st = (before ++ g :: after)%list ->
      name g = name goal_data -> target_date g = target_date goal_data ->
      (forall x, In x before ->
                 ~ (name x = name goal_data /\
                    target_date x = target_date goal_data)) ->
      get_goals (snd (delete_goal st1 (name goal_data) (target_date goal_data)))
      = (before ++ after ++ [goal_data])%list).
Proof.
  intros Hw. cbv zeta.
  assert (Hw1 : writable (snd (add_goal st goal_data)) = true).
  { unfold add_goal, save_data. now rewrite Hw. }
  assert (H1 : get_goals (snd (add_goal st goal_data))
               = (get_goals st ++ [goal_data])%list).
  { unfold add_goal. now rewrite get_goals_saved. }
  split; [unfold add_goal, save_data; now rewrite Hw|].
  split; [exact H1|]. split.
  - intros Hfresh.
    destruct (delete_goal_removes_first (snd (add_goal st goal_data))
                (name goal_data) (target_date goal_data)
                (get_goals st) [] goal_data Hw1 H1 eq_refl eq_refl Hfresh)
      as (_ & Hg & _).
    rewrite Hg. apply app_nil_r.
  - intros before g after Heq Hn Hd Hb.
    assert (H1' : get_goals (snd (add_goal st goal_data))
                  = (before ++ g :: (after ++ [goal_data]))%list).
    { rewrite H1, Heq, <- app_assoc. reflexivity. }
    destruct (delete_goal_removes_first (snd (add_goal st goal_data))
                (name goal_data) (target_date goal_data)
                before (after ++ [goal_data])%list g Hw1 H1' Hn Hd Hb)
      as (_ & Hg & _).
    exact Hg.
Qed.

Lemma add_then_delete_goal_witness :
  get_goals (snd (delete_goal (snd (add_goal Sample.store Fixture.swim))
                    "Swim" "2024-06-01"))
  = get_goals Sample.store.
Proof.
  destruct (add_then_delete_goal Sample.store Fixture.swim eq_refl)
    as (_ & _ & H & _).
  apply H. intros g [<-|[<-|[]]] [H1 H2]; discriminate.
Defined.

(** ** Updating a goal by hand *)

Lemma update_first_miss (test : goal -> bool) f goals :
  (forall g, In g goals -> test g = false) ->
  update_first test f goals = goals.
Proof.
  induction goals as [|g rest IH]; intros H; [reflexivity|].
  cbn. rewrite (H g (or_introl eq_refl)). f_equal.
  apply IH. intros x Hx. apply H. now right.
Qed.

Lemma update_first_hit (test : goal -> bool) f before g after :
  (forall x, In x before -> test x = false) ->
  test g = true ->
  update_first test f (before ++ g :: after)%list
  = (before ++ f g :: after)%list.
Proof.
  intros Hb Hg. induction before as [|x before IH]; cbn.
  - now rewrite Hg.
  - rewrite (Hb x (or_introl eq_refl)). f_equal.
    apply IH. intros y Hy. apply Hb. now right.
Qed.

Lemma writable_saved st data :
  writable st = true -> writable (snd (save_data st data)) = true.
Proof. intros Hw. unfold save_data. rewrite Hw. now destruct data. Qed.

(** Both forms, seen through the update applied to the first goal with
    the name and target date of the session copy. *)
Lemma manual_update_shape (today : string) (st : Store) (goal' : goal)
    (f : goal -> goal) (complete : bool) (before after : list goal) (g : goal) :
  writable st = true ->
  (forall x, same_goal goal' (f x) = same_goal goal' x) ->
  get_goals st = (before ++ g :: after)%list ->
  same_goal goal' g = true ->
  (forall x, In x before -> same_goal goal' x = false) ->
  let goals1 := update_first (same_goal goal') f (get_goals st) in
  let st1 := snd (save_data st (goals_file goals1)) in
  get_goals
    (if complete
     then snd (save_data st1
                 (goals_file
                    (update_first (same_goal goal') (mark_completed today)
                                  goals1)))
     else st1)
  = (before ++ (if complete then mark_completed today (f g) else f g)
            :: after)%list.
Proof.
  intros Hw Hf Hgoals Hg Hb. cbv zeta. rewrite Hgoals.
  rewrite (update_first_hit _ f before g after Hb Hg).
  destruct complete.
  - rewrite get_goals_saved by now apply writable_saved.
    apply update_first_hit; [exact Hb|]. now rewrite Hf.
  - now rewrite get_goals_saved.
Qed.

(** X5.  "Set New Value" acts on the first stored goal that has the name
    and target date of the goal picked in the session, whatever its
    status: its [current] becomes the entered value, and it is marked
    completed with today's date exactly when the entered value reaches
    the session copy's target.  Every other goal, and every later goal
    with the same name and target date, is kept as it is. *)
Theorem set_new_value_first_match (today : string) (st : Store)
    (goal' : goal) (new_value : Q) (before after : list goal) (g : goal) :
  writable st = true ->
  get_goals st = (before ++ g :: after)%list ->
  name g = name goal' -> target_date g = target_date goal' ->
  (forall x, In x before ->
             ~ (name x = name goal' /\ target_date x = target_date goal')) ->
  let goals' := get_goals (set_new_value today st goal' new_value) in
  ((target goal' <= new_value)%Q ->
     goals' = (before
               ++ mark_completed today (set_current new_value g) :: after)%list) /\
  ((new_value < target goal')%Q ->
     goals' = (before ++ set_current new_value g :: after)%list).
Proof.
  intros Hw Hgoals Hn Hd Hb. cbv zeta. unfold set_new_value.
  assert (Hg : same_goal goal' g = true) by now apply is_goal_spec.
  assert (Hb' : forall x, In x before -> same_goal goal' x = false).
  { intros x Hx. apply is_goal_false. now apply Hb. }
  pose proof (manual_update_shape today st goal' (set_current new_value))
    as Hshape.
  split.
  - intros Hle. apply PyFacts.le_spec in Hle. rewrite Hle.
    apply (Hshape true before after g); auto.
  - intros Hlt. apply PyFacts.le_false in Hlt. rewrite Hlt.
    apply (Hshape false before after g); auto.
Qed.

Lemma set_new_value_first_match_witness :
  get_goals (set_new_value "2024-03-10" Sample.store Sample.marathon 100)
  = [Sample.first_workout; set_current 100 Sample.marathon].
Proof.
  apply (set_new_value_first_match "2024-03-10" Sample.store Sample.marathon
           100 [Sample.first_workout] [] Sample.marathon);
    try reflexivity.
  intros x [<-|[]] [H1 H2]. discriminate.
Defined.



(** ** Logging a workout *)
















(** ** The estimator on its two paths *)

Lemma prepared_lookup (input_data : frame) (c : string) :
  In c expected_columns ->
  select_columns (fill_missing input_data) expected_columns !! c
  = Some (default 0%Q (input_data !! c)).
Proof.
  intros Hin.
  destruct (prepared_frame_column input_data c Hin) as (v & Hv & Hsome & Hnone).
  rewrite Hv. f_equal. destruct (input_data !! c) as [v0|] eqn:E; cbn.
  - now apply Hsome.
  - now apply Hnone.
Qed.

Lemma prepared_row_values (input_data : frame) :
  row_values (select_columns (fill_missing input_data) expected_columns)
             expected_columns
  = features_of input_data.
Proof.
  unfold row_values, features_of.
  assert (H : forall cols, (forall c, In c cols -> In c expected_columns) ->
            omap (fun c => select_columns (fill_missing input_data)
                             expected_columns !! c) cols
            = map (fun c => default 0%Q (input_data !! c)) cols).
  { induction cols as [|c cols IH]; intros Hsub; [reflexivity|].
    cbn [omap list_omap map].
    rewrite (prepared_lookup input_data c (Hsub c (or_introl eq_refl))).
    cbn. f_equal. apply IH. intros c' Hc'. apply Hsub. now right. }
  now apply H.
Qed.

(** The estimator once a model is in hand, from the file or from a
    successful training. *)
Lemma predict_calories_with_model env model input_data :
  model_pkl env = Pickled model \/
  (model_pkl env = Absent /\ train_model env = Some model) ->
  predict_calories env input_data
  = match model (features_of input_data) with
    | Some prediction => Returns prediction
    | None =>
        fallback_prediction
          (select_columns (fill_missing input_data) expected_columns)
    end.
Proof.
  intros [H|[H1 H2]]; unfold predict_calories.
  - rewrite H. cbn [try_model]. now rewrite prepared_row_values.
  - rewrite H1, H2. cbn [try_model]. now rewrite prepared_row_values.
Qed.

(** X10.  With a model in hand (unpickled from the file, or just
    trained because the file was absent), the estimator hands the
    regressor the six values Age, BMI, Duration, Heart_Rate, Body_Temp,
    Gender_male in this order, 0 standing for a missing column, and
    returns the regressor's answer as it is, negative answers included.
    Columns other than these six have no influence on the result. *)
Theorem predict_calories_model_path (env : Env) (model : regressor)
    (input_data : frame) :
  model_pkl env = Pickled model \/
  (model_pkl env = Absent /\ train_model env = Some model) ->
  let value c := default 0%Q (input_data !! c) in
  let features := [value "Age"; value "BMI"; value "Duration";
                   value "Heart_Rate"; value "Body_Temp";
                   value "Gender_male"] in
  (forall prediction,
      model features = Some prediction ->
      predict_calories env input_data = Returns prediction) /\
  (forall other : frame,
      (forall c, In c expected_columns -> other !! c = input_data !! c) ->
      predict_calories env other = predict_calories env input_data).
Proof.
  intros Henv. cbv zeta. split.
  - intros prediction Hp.
    rewrite (predict_calories_with_model env model input_data Henv).
    unfold features_of. cbn [map expected_columns]. now rewrite Hp.
  - intros other Hsame.
    rewrite !(predict_calories_with_model env model _ Henv).
    assert (Hf : features_of other = features_of input_data).
    { unfold features_of. apply map_ext_in. intros c Hc.
      now rewrite (Hsame c Hc). }
    rewrite Hf. destruct (model (features_of input_data)); [reflexivity|].
    unfold fallback_prediction, column.
    rewrite !prepared_lookup by (cbn; tauto).
    rewrite !Hsame by (cbn; tauto). reflexivity.
Qed.

Lemma predict_calories_model_path_witness :
  predict_calories
    {| model_pkl := Pickled Fixture.age_minus_duration; train_model := None |}
    Sample.row_without_age
  = Returns (0 - 30)%Q.
Proof.
  eapply (predict_calories_model_path _ _ Sample.row_without_age).
  - left. reflexivity.
  - reflexivity.
Defined.

(** X11.  With a model in hand whose [predict] raises, the estimator
    does not raise: it returns the fallback formula evaluated on the
    row with 0 for each missing column, a non-negative value.  In
    particular a missing Age counts as age 0 (age factor 1) and a
    missing Gender_male as not male (gender factor 1). *)
Theorem predict_calories_regressor_fails (env : Env) (model : regressor)
    (input_data : frame) :
  model_pkl env = Pickled model \/
  (model_pkl env = Absent /\ train_model env = Some model) ->
  model (features_of input_data) = None ->
  let value c := default 0%Q (input_data !! c) in
  exists calories,
    predict_calories env input_data = Returns calories /\
    (0 <= calories)%Q /\
    calories
    = Py.max 0
        (value "Duration" * (value "Heart_Rate" - 60) * (175 # 10000)
         * (if Py.eq (value "Gender_male") 1 then 12 # 10 else 1)
         * (if Py.lt 20 (value "Age")
            then 1 - (value "Age" - 20) * (5 # 1000) else 1))%Q.
Proof.
  intros Henv Hnone. cbv zeta.
  rewrite (predict_calories_with_model env model input_data Henv), Hnone.
  eexists. split.
  - apply fallback_prediction_value; apply prepared_lookup; cbn; tauto.
  - split; [apply py_max_nonneg | reflexivity].
Qed.

Lemma predict_calories_regressor_fails_witness :
  exists calories,
    predict_calories
      {| model_pkl := Absent; train_model := Some (fun _ => None) |}
      Sample.row_without_age = Returns calories /\
    (calories == 30 * (120 - 60) * (175 # 10000) * (12 # 10) * 1)%Q.
Proof.
  destruct (predict_calories_regressor_fails
              {| model_pkl := Absent; train_model := Some (fun _ => None) |}
              (fun _ => None) Sample.row_without_age)
    as (calories & Hc & _ & Hv).
  - right. split; reflexivity.
  - reflexivity.
  - exists calories. split; [exact Hc|]. rewrite Hv. reflexivity.
Defined.

(** ** When the fallback estimate is zero *)

Lemma sign_of_raw (dur hr gf af : Q) :
  (0 <= dur)%Q -> (0 < gf)%Q -> (0 < af)%Q ->
  ((0 < dur * (hr - 60) * (175 # 10000) * gf * af)%Q <->
   (0 < dur)%Q /\ (60 < hr)%Q).
Proof.
  intros Hd Hg Ha.
  assert (Hk : (0 < (175 # 10000) * gf * af)%Q).
  { apply Qmult_lt_0_compat; [|exact Ha].
    apply Qmult_lt_0_compat; [reflexivity|exact Hg]. }
  set (k := ((175 # 10000) * gf * af)%Q) in *.
  assert (E : (dur * (hr - 60) * (175 # 10000) * gf * af
               == dur * (hr - 60) * k)%Q) by (unfold k; ring).
  rewrite E. split.
  - intros H.
    destruct (Qlt_le_dec 0 dur) as [Hpos|Hzero].
    + split; [exact Hpos|].
      destruct (Qlt_le_dec 60 hr) as [Hhr|Hhr]; [exact Hhr|exfalso].
      assert (Hdk : (0 < dur * k)%Q) by now apply Qmult_lt_0_compat.
      assert (E2 : (dur * (hr - 60) * k == (dur * k) * (hr - 60))%Q) by ring.
      rewrite E2 in H.
      assert (Hle : ((dur * k) * (hr - 60) <= (dur * k) * 0)%Q).
      { apply Qmult_le_l; [exact Hdk|lra]. }
      rewrite Qmult_0_r in Hle. lra.
    + exfalso. assert (Hd0 : (dur == 0)%Q) by lra.
      rewrite Hd0 in H. ring_simplify in H. lra.
  - intros [H1 H2].
    apply Qmult_lt_0_compat; [|exact Hk].
    apply Qmult_lt_0_compat; [exact H1|lra].
Qed.

(** X12.  For a duration that is not negative and an age below 220, the
    fallback estimate is positive exactly when the duration is positive
    and the heart rate is above 60, and is exactly 0 otherwise: a
    workout at 60 bpm or less is credited no calories at all, whatever
    its length. *)
Theorem fallback_prediction_positive_iff (input_data : frame)
    (a dur hr gm : Q) :
  input_data !! "Age" = Some a ->
  input_data !! "Duration" = Some dur ->
  input_data !! "Heart_Rate" = Some hr ->
  input_data !! "Gender_male" = Some gm ->
  (0 <= dur)%Q -> (a < 220)%Q ->
  exists calories,
    fallback_prediction input_data = Returns calories /\
    ((0 < calories)%Q <-> (0 < dur)%Q /\ (60 < hr)%Q) /\
    (~ ((0 < dur)%Q /\ (60 < hr)%Q) -> calories = 0%Q).
Proof.
  intros Ha Hd Hh Hg Hdur Hage.
  eexists. split; [now apply (fallback_prediction_value _ a dur hr gm)|].
  set (gf := if Py.eq gm 1 then 12 # 10 else 1%Q).
  set (af := if Py.lt 20 a then (1 - (a - 20) * (5 # 1000))%Q else 1%Q).
  assert (Hgf : (0 < gf)%Q) by (unfold gf; destruct (Py.eq gm 1); reflexivity).
  assert (Haf : (0 < af)%Q).
  { unfold af. destruct (Py.lt 20 a); [lra|reflexivity]. }
  pose proof (sign_of_raw dur hr gf af Hdur Hgf Haf) as Hsign.
  unfold Py.max. destruct (Py.lt 0 _) eqn:E.
  - apply PyFacts.lt_spec in E. split; [|intros Hn; tauto].
    split; [intros _; now apply Hsign | intros _; exact E].
  - apply PyFacts.lt_false in E. split; [|reflexivity].
    split; [intros H; discriminate H|].
    intros H. apply Hsign in H. lra.
Qed.

Lemma fallback_prediction_positive_iff_witness :
  exists calories,
    fallback_prediction (<["Heart_Rate" := 60%Q]> (Sample.row_of_age 30))
      = Returns calories /\
    calories = 0%Q.
Proof.
  destruct (fallback_prediction_positive_iff
              (<["Heart_Rate" := 60%Q]> (Sample.row_of_age 30))
              30 30 60 1)
    as (calories & Hc & _ & Hzero).
  - vm_compute. reflexivity.
  - vm_compute. reflexivity.
  - vm_compute. reflexivity.
  - vm_compute. reflexivity.
  - discriminate.
  - reflexivity.
  - exists calories. split; [exact Hc|]. apply Hzero.
    intros [_ H]. discriminate H.
Defined.

(** ** Daily needs *)





(** ** Totals of the nutrition history *)

Lemma foldl_Qplus_shift (a : Q) (l : list Q) :
  (foldl Qplus a l == a + foldl Qplus 0 l)%Q.
Proof.
  revert a. induction l as [|x l IH]; intros a; cbn.
  - ring.
  - rewrite (IH (a + x)%Q), (IH (0 + x)%Q). ring.
Qed.

Lemma sum_in_order_nil : sum_in_order [] = 0%Q.
Proof. reflexivity. Qed.

Lemma sum_in_order_cons (x : Q) (l : list Q) :
  (sum_in_order (x :: l) == x + sum_in_order l)%Q.
Proof.
  unfold sum_in_order. cbn. rewrite foldl_Qplus_shift. ring.
Qed.

Lemma sum_in_order_app (l1 l2 : list Q) :
  (sum_in_order (l1 ++ l2) == sum_in_order l1 + sum_in_order l2)%Q.
Proof.
  induction l1 as [|x l1 IH].
  - cbn [app]. rewrite sum_in_order_nil. ring.
  - cbn [app]. rewrite !sum_in_order_cons, IH. ring.
Qed.

Section Totals.

Context {A : Type} (f : A -> Q).



End Totals.




(** ** Logging a meal *)

Lemma nutrition_logs_after_log_meal st meal_data :
  writable st = true ->
  load_data (nutrition_logs_json (snd (log_meal st meal_data))) []
  = (load_data (nutrition_logs_json st) [] ++ [meal_data])%list.
Proof. intros Hw. unfold log_meal, save_data. now rewrite Hw. Qed.

(** The records of the windowed history, one by one: a record is listed
    exactly when its date is the date of a kept meal and it is the
    replay of that date's meals. *)
Lemma daily_entries (kept : list meal) (t : day_totals) :
  In t (sort_by (fun x y => String.leb (dt_date x) (dt_date y))
          (aggregate kept)) <->
  In (dt_date t) (map m_date kept) /\
  t = replay empty_totals (dt_date t) (map meal_op kept).
Proof.
  rewrite sort_by_In. unfold aggregate. rewrite aggregate_run.
  assert (Hkeep : Forall (fun op => keeps_key dt_date (snd op))
                         (map meal_op kept)).
  { apply Forall_forall. intros op Hop. apply list_elem_of_In in Hop.
    apply in_map_iff in Hop.
    destruct Hop as (log & <- & _). intros e. reflexivity. }
  destruct (run_ops_spec dt_date empty_totals (fun k => eq_refl)
              (map meal_op kept) Hkeep) as (_ & Hkeys & Hval).
  assert (Hfst : map fst (map meal_op kept) = map m_date kept)
    by now rewrite List.map_map.
  rewrite Hfst in Hkeys.
  set (d := run_ops dt_date empty_totals [] (map meal_op kept)) in *.
  split.
  - intros Ht. split; [|now apply Hval].
    apply Hkeys. now apply in_map.
  - intros [Hdate ->]. apply Hkeys in Hdate.
    apply in_map_iff in Hdate. destruct Hdate as (e & He & Hin).
    rewrite <- He. rewrite <- (Hval e Hin). exact Hin.
Qed.

(** X16.  [log_meal] stores the meal at the end of the log (a missing
    log counts as empty), which is what [get_nutrition_history] with
    [days=None] then returns; and a meal dated before the cutoff of a
    window leaves the per-day history of that window as it was. *)
Theorem log_meal_round_trip (cutoff_date : Z -> string) (st : Store)
    (meal_data : meal) :
  writable st = true ->
  let st' := snd (log_meal st meal_data) in
  fst (log_meal st meal_data) = true /\
  get_nutrition_history cutoff_date st' None
  = Meals (load_data (nutrition_logs_json st) [] ++ [meal_data])%list /\
  (forall days,
      String.ltb (m_date meal_data) (cutoff_date days) = true ->
      get_nutrition_history cutoff_date st' (Some days)
      = get_nutrition_history cutoff_date st (Some days)).
Proof.
  intros Hw. cbv zeta. split; [|split].
  - unfold log_meal, save_data. now rewrite Hw.
  - unfold get_nutrition_history.
    now rewrite nutrition_logs_after_log_meal.
  - intros days Hlt. unfold get_nutrition_history.
    rewrite nutrition_logs_after_log_meal by exact Hw.
    rewrite List.filter_app. cbn [List.filter].
    assert (Hout : String.leb (cutoff_date days) (m_date meal_data) = false).
    { unfold String.ltb in Hlt. unfold String.leb.
      rewrite String.compare_antisym.
      destruct (String.compare (m_date meal_data) (cutoff_date days));
        try discriminate. reflexivity. }
    rewrite Hout. now rewrite app_nil_r.
Qed.

Lemma log_meal_round_trip_witness :
  get_nutrition_history Sample.cutoff_date
    (snd (log_meal Sample.fed_store (Fixture.pear "2024-02-10"))) (Some 7%Z)
  = get_nutrition_history Sample.cutoff_date Sample.fed_store (Some 7%Z).
Proof.
  apply (log_meal_round_trip Sample.cutoff_date Sample.fed_store
           (Fixture.pear "2024-02-10") eq_refl).
  reflexivity.
Defined.

(** X17.  A meal logged with a date on or after the cutoff of a window
    changes only its own day in that window's history: the records of
    the other days are the same before and after, and the record of the
    meal's day is the previous one with the meal's calories, protein,
    carbs and fat added, or a new record holding just the meal when the
    day had none. *)
Theorem log_meal_updates_its_day (cutoff_date : Z -> string) (st : Store)
    (meal_data : meal) (days : Z) :
  writable st = true ->
  String.leb (cutoff_date days) (m_date meal_data) = true ->
  exists before after,
    get_nutrition_history cutoff_date st (Some days) = Daily before /\
    get_nutrition_history cutoff_date (snd (log_meal st meal_data)) (Some days)
      = Daily after /\
    (forall t, dt_date t <> m_date meal_data ->
               (In t after <-> In t before)) /\
    (forall t, In t before -> dt_date t = m_date meal_data ->
               In (add_meal meal_data t) after) /\
    ((forall t, In t before -> dt_date t <> m_date meal_data) ->
     In (add_meal meal_data (empty_totals (m_date meal_data))) after).
Proof.
  intros Hw Hin. eexists. eexists. split; [reflexivity|].
  unfold get_nutrition_history.
  rewrite nutrition_logs_after_log_meal by exact Hw.
  rewrite List.filter_app. cbn [List.filter]. rewrite Hin.
  split; [reflexivity|].
  set (kept := List.filter _ (load_data (nutrition_logs_json st) [])).
  assert (Hops : map meal_op (kept ++ [meal_data])
                 = (map meal_op kept
                    ++ [(m_date meal_data, add_meal meal_data)])%list)
    by now rewrite map_app.
  split; [|split].
  - intros t Hne. rewrite !daily_entries, Hops, map_app, in_app_iff.
    rewrite replay_snoc_other by congruence. cbn.
    split; [|tauto]. intros [[H|[H|[]]] Ht]; [tauto|congruence].
  - intros t Ht Hd. apply daily_entries in Ht. destruct Ht as [Hdate Ht].
    apply daily_entries. cbn [add_meal dt_date].
    split; [rewrite map_app, in_app_iff; now left|].
    rewrite Hops, Hd, replay_snoc_same. f_equal.
    rewrite <- Hd. exact Ht.
  - intros Hnone. apply daily_entries. cbn [add_meal dt_date empty_totals].
    split; [rewrite map_app, in_app_iff; right; now left|].
    rewrite Hops, replay_snoc_same. f_equal.
    unfold replay. rewrite filter_key_absent; [reflexivity|].
    rewrite List.map_map. cbn. intros Hd.
    apply in_map_iff in Hd. destruct Hd as (log & Hlog & Hkept).
    apply (Hnone (replay empty_totals (m_date meal_data) (map meal_op kept))).
    + apply daily_entries. split.
      * assert (Hk : dt_date (replay empty_totals (m_date meal_data)
                                (map meal_op kept)) = m_date meal_data).
        { unfold replay.
          destruct (replay_meals (m_date meal_data) kept
                      (empty_totals (m_date meal_data))) as (Hk & _).
          exact Hk. }
        rewrite Hk. rewrite <- Hlog. now apply in_map.
      * assert (Hk : dt_date (replay empty_totals (m_date meal_data)
                                (map meal_op kept)) = m_date meal_data).
        { unfold replay.
          destruct (replay_meals (m_date meal_data) kept
                      (empty_totals (m_date meal_data))) as (Hk & _).
          exact Hk. }
        now rewrite Hk.
    + unfold replay.
      destruct (replay_meals (m_date meal_data) kept
                  (empty_totals (m_date meal_data))) as (Hk & _).
      exact Hk.
Qed.

Lemma log_meal_updates_its_day_witness :
  exists after,
    get_nutrition_history Sample.cutoff_date
      (snd (log_meal Sample.fed_store (Fixture.pear "2024-03-02")))
      (Some 7%Z) = Daily after /\
    In {| dt_date := "2024-03-01"; dt_calories := 0 + 700;
          dt_protein := 0 + 30; dt_carbs := 0 + 90; dt_fat := 0 + 20 |}
       after /\
    In {| dt_date := "2024-03-02"; dt_calories := 0 + 400 + 600 + 80;
          dt_protein := 0 + 20 + 25 + 1; dt_carbs := 0 + 50 + 60 + 20;
          dt_fat := 0 + 10 + 15 + 0 |} after.
Proof.
  destruct (log_meal_updates_its_day Sample.cutoff_date Sample.fed_store
              (Fixture.pear "2024-03-02") 7%Z eq_refl eq_refl)
    as (before & after & Hb & Ha & Hother & Hday & _).
  injection Hb as Hb. subst before.
  exists after. split; [exact Ha|]. split.
  - apply Hother; [discriminate|]. left. reflexivity.
  - apply (Hday {| dt_date := "2024-03-02"; dt_calories := 0 + 400 + 600;
                   dt_protein := 0 + 20 + 25; dt_carbs := 0 + 50 + 60;
                   dt_fat := 0 + 10 + 15 |}); [|reflexivity].
    right. left. reflexivity.
Defined.

(** ** The category shown for a height and a weight *)

Lemma round_half_even_le (y : Q) (m : Z) :
  (Py.round_half_even y <= m)%Z <->
  (y < inject_Z m + (1 # 2))%Q \/
  ((y == inject_Z m + (1 # 2))%Q /\ Z.even m = true).
Proof.
  unfold Py.round_half_even.
  pose proof (Qfloor_le y) as Hlo. pose proof (Qlt_floor y) as Hhi.
  rewrite inject_Z_plus in Hhi. change (inject_Z 1) with 1%Q in Hhi.
  set (n := Qfloor y) in *.
  assert (Hcmp : (n < m)%Z \/ n = m \/ (m < n)%Z) by lia.
  assert (Hlt : (n < m)%Z -> (inject_Z n + 1 <= inject_Z m)%Q).
  { intros H. change 1%Q with (inject_Z 1). rewrite <- inject_Z_plus.
    rewrite <- Zle_Qle. lia. }
  assert (Hgt : (m < n)%Z -> (inject_Z m + 1 <= inject_Z n)%Q).
  { intros H. change 1%Q with (inject_Z 1). rewrite <- inject_Z_plus.
    rewrite <- Zle_Qle. lia. }
  destruct (Qcompare (y - inject_Z n) (1 # 2)) eqn:E.
  - apply Qeq_alt in E.
    destruct Hcmp as [H|[H|H]].
    + specialize (Hlt H). split; [intros _; left; lra|].
      intros _. destruct (Z.even n); lia.
    + subst m. destruct (Z.even n) eqn:Ev.
      * split; [intros _; right; split; [lra|reflexivity]|lia].
      * split; [lia|]. intros [H|[_ H]]; [lra|discriminate].
    + specialize (Hgt H). split.
      * intros H'. destruct (Z.even n); lia.
      * intros [H'|[H' _]]; lra.
  - apply Qlt_alt in E.
    destruct Hcmp as [H|[H|H]].
    + specialize (Hlt H). split; [intros _; left; lra|lia].
    + subst m. split; [intros _; left; lra|lia].
    + specialize (Hgt H). split; [lia|]. intros [H'|[H' _]]; lra.
  - apply Qgt_alt in E.
    destruct Hcmp as [H|[H|H]].
    + specialize (Hlt H). split; [intros _; left; lra|lia].
    + subst m. split; [lia|]. intros [H'|[H' _]]; lra.
    + specialize (Hgt H). split; [lia|]. intros [H'|[H' _]]; lra.
Qed.

Lemma tenths_le (n k : Z) :
  (inject_Z n / 10 <= inject_Z k / 10)%Q <-> (n <= k)%Z.
Proof.
  rewrite Zle_Qle. split; intros H.
  - assert (E : forall x : Q, (x == x / 10 * 10)%Q) by (intros; field).
    rewrite (E (inject_Z n)), (E (inject_Z k)). lra.
  - assert (E : forall x : Q, (x / 10 == x * (1 # 10))%Q) by (intros; field).
    rewrite !E. lra.
Qed.

Lemma tenths_lt (n k : Z) :
  (inject_Z n / 10 < inject_Z k / 10)%Q <-> (n < k)%Z.
Proof.
  rewrite Zlt_Qlt. split; intros H.
  - assert (E : forall x : Q, (x == x / 10 * 10)%Q) by (intros; field).
    rewrite (E (inject_Z n)), (E (inject_Z k)). lra.
  - assert (E : forall x : Q, (x / 10 == x * (1 # 10))%Q) by (intros; field).
    rewrite !E. lra.
Qed.

(** The tests of [get_bmi_category] on a rounded value, read on the
    value before rounding. *)
Lemma rounded_tests (q : Q) :
  (Py.le (Py.round q 1) 0 = true <-> (q <= 5 # 100)%Q) /\
  (Py.lt (Py.round q 1) (185 # 10) = true <-> (q <= 1845 # 100)%Q) /\
  (Py.lt (Py.round q 1) 25 = true <-> (q < 2495 # 100)%Q) /\
  (Py.lt (Py.round q 1) 30 = true <-> (q < 2995 # 100)%Q).
Proof.
  unfold Py.round. change (inject_Z (10 ^ Z.of_nat 1)) with 10%Q.
  set (n := Py.round_half_even (q * 10)).
  assert (H0 : (inject_Z n / 10 <= 0)%Q <-> (n <= 0)%Z).
  { rewrite <- tenths_le. change (inject_Z 0 / 10)%Q with (0 # 10).
    split; intros H; lra. }
  assert (H1 : (inject_Z n / 10 < 185 # 10)%Q <-> (n <= 184)%Z).
  { assert (E : (185 # 10 == inject_Z 185 / 10)%Q) by reflexivity.
    rewrite E, tenths_lt. lia. }
  assert (H2 : (inject_Z n / 10 < 25)%Q <-> (n <= 249)%Z).
  { assert (E : (25 == inject_Z 250 / 10)%Q) by reflexivity.
    rewrite E, tenths_lt. lia. }
  assert (H3 : (inject_Z n / 10 < 30)%Q <-> (n <= 299)%Z).
  { assert (E : (30 == inject_Z 300 / 10)%Q) by reflexivity.
    rewrite E, tenths_lt. lia. }
  rewrite PyFacts.le_spec, !PyFacts.lt_spec, H0, H1, H2, H3.
  unfold n. rewrite !round_half_even_le. cbn [Z.even].
  change (inject_Z 0) with 0%Q. change (inject_Z 184) with 184%Q.
  change (inject_Z 249) with 249%Q. change (inject_Z 299) with 299%Q.
  repeat split.
  - intros [H|[H _]]; lra.
  - intros H. destruct (Qlt_le_dec (q * 10) (0 + (1 # 2))) as [Hl|Hl];
      [now left|right]. split; [lra|reflexivity].
  - intros [H|[H _]]; lra.
  - intros H. destruct (Qlt_le_dec (q * 10) (184 + (1 # 2))) as [Hl|Hl];
      [now left|right]. split; [lra|reflexivity].
  - intros [H|[_ H]]; [lra|discriminate].
  - intros H. left. lra.
  - intros [H|[_ H]]; [lra|discriminate].
  - intros H. left. lra.
Qed.

(** The category as a function of the exact quotient, ties included
    (a tie goes to the even tenth). *)
Lemma bmi_category_cuts (h w : Q) :
  (0 < h)%Q -> (0 < w)%Q ->
  let q := (w / (h / 100) ^ 2)%Q in
  let category := get_bmi_category (calculate_bmi h w) in
  (category = "Unknown" <-> (q <= 5 # 100)%Q) /\
  (category = "Underweight" <-> (5 # 100 < q)%Q /\ (q <= 1845 # 100)%Q) /\
  (category = "Normal weight" <->
     (1845 # 100 < q)%Q /\ (q < 2495 # 100)%Q) /\
  (category = "Overweight" <->
     (2495 # 100 <= q)%Q /\ (q < 2995 # 100)%Q) /\
  (category = "Obese" <-> (2995 # 100 <= q)%Q).
Proof.
  intros Hh Hw. cbv zeta.
  assert (E : calculate_bmi h w = Py.round (w / (h / 100) ^ 2) 1).
  { unfold calculate_bmi.
    apply PyFacts.le_false in Hh. apply PyFacts.le_false in Hw.
    now rewrite Hh, Hw. }
  rewrite E. set (q := (w / (h / 100) ^ 2)%Q).
  destruct (rounded_tests q) as (T0 & T1 & T2 & T3).
  unfold get_bmi_category.
  destruct (Py.le (Py.round q 1) 0) eqn:E0.
  { assert (H0 : (q <= 5 # 100)%Q) by now apply T0.
    repeat split; intros; try discriminate; try reflexivity; try lra. }
  assert (H0 : ~ (q <= 5 # 100)%Q) by (intros H; apply T0 in H; discriminate).
  destruct (Py.lt (Py.round q 1) (185 # 10)) eqn:E1.
  { assert (H1 : (q <= 1845 # 100)%Q) by now apply T1.
    repeat split; intros; try discriminate; try reflexivity; try lra. }
  assert (H1 : ~ (q <= 1845 # 100)%Q) by (intros H; apply T1 in H; discriminate).
  destruct (Py.lt (Py.round q 1) 25) eqn:E2.
  { assert (H2 : (q < 2495 # 100)%Q) by now apply T2.
    repeat split; intros; try discriminate; try reflexivity; try lra. }
  assert (H2 : ~ (q < 2495 # 100)%Q) by (intros H; apply T2 in H; discriminate).
  destruct (Py.lt (Py.round q 1) 30) eqn:E3.
  { assert (H3 : (q < 2995 # 100)%Q) by now apply T3.
    repeat split; intros; try discriminate; try reflexivity; try lra. }
  assert (H3 : ~ (q < 2995 # 100)%Q) by (intros H; apply T3 in H; discriminate).
  repeat split; intros; try discriminate; try reflexivity; try lra.
Qed.

(** X18.  The category shown for a positive height and weight is taken
    from the BMI rounded to one decimal, so on the exact quotient
    [q = weight_kg / (height_cm / 100) ^ 2] the cuts sit at 18.45, 24.95
    and 29.95 instead of 18.5, 25 and 30: [q] strictly between 18.45 and
    24.95 is Normal weight, between 24.95 and 29.95 Overweight, above
    29.95 Obese, between 0.05 and 18.45 Underweight, and a quotient
    below 0.05 is shown as Unknown although both inputs are valid. *)
Theorem bmi_category_of_quotient (h w : Q) :
  (0 < h)%Q -> (0 < w)%Q ->
  let q := (w / (h / 100) ^ 2)%Q in
  let category := get_bmi_category (calculate_bmi h w) in
  ((q < 5 # 100)%Q -> category = "Unknown") /\
  ((5 # 100 < q)%Q -> (q < 1845 # 100)%Q -> category = "Underweight") /\
  ((1845 # 100 < q)%Q -> (q < 2495 # 100)%Q -> category = "Normal weight") /\
  ((2495 # 100 < q)%Q -> (q < 2995 # 100)%Q -> category = "Overweight") /\
  ((2995 # 100 < q)%Q -> category = "Obese").
Proof.
  intros Hh Hw. cbv zeta.
  destruct (bmi_category_cuts h w Hh Hw) as (H0 & H1 & H2 & H3 & H4).
  cbv zeta in H0, H1, H2, H3, H4.
  split; [|split; [|split; [|split]]].
  - intros H. apply H0. lra.
  - intros Ha Hb. apply H1. split; lra.
  - intros Ha Hb. apply H2. split; lra.
  - intros Ha Hb. apply H3. split; lra.
  - intros H. apply H4. lra.
Qed.

Lemma bmi_category_of_quotient_witness :
  get_bmi_category (calculate_bmi 200 (999 # 10)) = "Overweight" /\
  ((999 # 10) / (200 / 100) ^ 2 < 25)%Q.
Proof.
  split; [|reflexivity].
  apply (bmi_category_of_quotient 200 (999 # 10)); reflexivity.
Defined.

(** ** The workout history and its window *)

(** X19.  [add_workout] stores the workout at the end of the history (a
    missing history counts as empty).  [get_workout_history] returns the
    stored entries in logging order, not in date order: all of them with
    [days=None], and for an integer window exactly those dated on or
    after the cutoff, so that a newly added workout shows up at the end
    of a window when its date is inside it and not at all otherwise. *)
Theorem add_workout_then_history (cutoff_date : Z -> string) (st : Store)
    (workout_data : workout) :
  writable st = true ->
  let st' := snd (add_workout st workout_data) in
  fst (add_workout st workout_data) = true /\
  get_workout_history cutoff_date st' None
  = (get_workout_history cutoff_date st None ++ [workout_data])%list /\
  (forall days,
      String.leb (cutoff_date days) (w_date workout_data) = true ->
      get_workout_history cutoff_date st' (Some days)
      = (get_workout_history cutoff_date st (Some days)
         ++ [workout_data])%list) /\
  (forall days,
      String.leb (cutoff_date days) (w_date workout_data) = false ->
      get_workout_history cutoff_date st' (Some days)
      = get_workout_history cutoff_date st (Some days)) /\
  (forall days w,
      In w (get_workout_history cutoff_date st' (Some days)) <->
      In w (get_workout_history cutoff_date st' None) /\
      String.leb (cutoff_date days) (w_date w) = true).
Proof.
  intros Hw. cbv zeta.
  assert (Hh : load_data (workout_history_json (snd (add_workout st workout_data))) []
               = (load_data (workout_history_json st) [] ++ [workout_data])%list).
  { unfold add_workout, save_data. now rewrite Hw. }
  unfold get_workout_history. rewrite Hh.
  split; [unfold add_workout, save_data; now rewrite Hw|].
  split; [reflexivity|]. split; [|split].
  - intros days Hin. rewrite List.filter_app. cbn [List.filter].
    now rewrite Hin.
  - intros days Hout. rewrite List.filter_app. cbn [List.filter].
    rewrite Hout. apply app_nil_r.
  - intros days w. apply filter_In.
Qed.

Lemma add_workout_then_history_witness :
  get_workout_history Sample.cutoff_date
    (snd (add_workout Sample.store Fixture.old_workout)) (Some 7%Z)
  = [].
Proof.
  apply (add_workout_then_history Sample.cutoff_date Sample.store
           Fixture.old_workout eq_refl).
  reflexivity.
Defined.

(** ** The healthy weight range and the category *)

(** X20.  Every weight inside the healthy weight range shown for a
    positive height is categorised "Normal weight", and so is every
    weight above the range up to a quotient of 24.95: the range stops at
    a BMI of 24.9 while the category, taken from the rounded BMI, turns
    to Overweight only past 24.95. *)
Theorem healthy_range_is_normal_weight (height weight : Q) :
  (0 < height)%Q ->
  let '(min_weight, max_weight) := healthy_weight_range height in
  (0 < min_weight)%Q /\
  ((min_weight <= weight)%Q -> (weight <= max_weight)%Q ->
     get_bmi_category (calculate_bmi height weight) = "Normal weight") /\
  ((max_weight < weight)%Q ->
   (weight < (2495 # 100) * (height / 100) ^ 2)%Q ->
     get_bmi_category (calculate_bmi height weight) = "Normal weight").
Proof.
  intros Hh. unfold healthy_weight_range.
  set (s := ((height / 100) ^ 2)%Q).
  assert (Hs : (0 < s)%Q).
  { unfold s. assert (Hm : (0 < height / 100)%Q).
    { apply Qlt_shift_div_l; [reflexivity|]. lra. }
    change ((height / 100) ^ 2)%Q with ((height / 100) * (height / 100))%Q.
    now apply Qmult_lt_0_compat. }
  assert (Hq : forall w c : Q,
             ((c * s <= w)%Q -> (c <= w / s)%Q) /\
             ((w <= c * s)%Q -> (w / s <= c)%Q) /\
             ((w < c * s)%Q -> (w / s < c)%Q) /\
             ((c * s < w)%Q -> (c < w / s)%Q)).
  { intros w c. repeat split; intros H.
    - now apply Qle_shift_div_l.
    - now apply Qle_shift_div_r.
    - now apply Qlt_shift_div_r.
    - now apply Qlt_shift_div_l. }
  assert (Hmin : (0 < (185 # 10) * s)%Q)
    by (apply Qmult_lt_0_compat; [reflexivity|exact Hs]).
  split; [exact Hmin|]. split.
  - intros Hlo Hhi.
    assert (Hw : (0 < weight)%Q) by lra.
    destruct (bmi_category_cuts height weight Hh Hw) as (_ & _ & Hn & _).
    cbv zeta in Hn. apply Hn. fold s.
    destruct (Hq weight (185 # 10)) as (H1 & _).
    destruct (Hq weight (249 # 10)) as (_ & H2 & _).
    specialize (H1 Hlo). specialize (H2 Hhi). split; lra.
  - intros Hlo Hhi.
    assert (Hw : (0 < weight)%Q).
    { assert ((185 # 10) * s <= (249 # 10) * s)%Q
        by (apply Qmult_le_compat_r; [discriminate|lra]). lra. }
    destruct (bmi_category_cuts height weight Hh Hw) as (_ & _ & Hn & _).
    cbv zeta in Hn. apply Hn. fold s.
    destruct (Hq weight (249 # 10)) as (_ & _ & _ & H1).
    destruct (Hq weight (2495 # 100)) as (_ & _ & H2 & _).
    specialize (H1 Hlo). specialize (H2 Hhi). split; lra.
Qed.

Lemma healthy_range_is_normal_weight_witness :
  get_bmi_category (calculate_bmi 200 (997 # 10)) = "Normal weight" /\
  (snd (healthy_weight_range 200) < 997 # 10)%Q.
Proof.
  split; [|reflexivity].
  apply (healthy_range_is_normal_weight 200 (997 # 10)); reflexivity.
Defined.

(** ** The Complete button *)

Lemma goal_eqb_refl (g : goal) : goal_eqb g g = true.
Proof.
  unfold goal_eqb, Py.eq. rewrite !String.eqb_refl.
  rewrite !(proj2 (Qeq_bool_iff _ _) (Qeq_refl _)). cbn.
  destruct (completion_date g); [apply String.eqb_refl|reflexivity].
Qed.

Lemma goal_eqb_fields (a b : goal) :
  goal_eqb a b = true ->
  name a = name b /\ target_date a = target_date b /\ status a = status b.
Proof.
  unfold goal_eqb. rewrite !andb_true_iff, !String.eqb_eq. tauto.
Qed.

Lemma index_of_first (x : goal) (goals : list goal) (k : nat) (y : goal) :
  goals !! k = Some y -> goal_eqb y x = true ->
  (forall i z, (i < k)%nat -> goals !! i = Some z -> goal_eqb z x = false) ->
  index_of x goals = Some k.
Proof.
  revert k. induction goals as [|g rest IH]; intros k Hk Hy Hbefore.
  - discriminate.
  - destruct k as [|k]; cbn in Hk.
    + injection Hk as ->. cbn. now rewrite Hy.
    + cbn. rewrite (Hbefore 0%nat g); [|lia|reflexivity].
      rewrite (IH k Hk Hy); [reflexivity|].
      intros i z Hi Hz. apply (Hbefore (S i) z); [lia|exact Hz].
Qed.

Lemma other_name_not_equal (x g : goal) :
  ~ (name x = name g /\ target_date x = target_date g) ->
  forall g', name g' = name g -> target_date g' = target_date g ->
             goal_eqb x g' = false.
Proof.
  intros Hne g' Hn Hd. destruct (goal_eqb x g') eqn:E; [|reflexivity].
  apply goal_eqb_fields in E. destruct E as (E1 & E2 & _).
  exfalso. apply Hne. split; congruence.
Qed.

(** X21.  Pressing Complete on an active goal that no earlier goal
    shares its name and target date with marks that goal, and no other,
    as completed with today's date; all other goals keep their place and
    their fields. *)
Theorem complete_button_marks_goal (today : string) (st : Store)
    (k : nat) (g : goal) :
  writable st = true ->
  get_goals st !! k = Some g ->
  status g = "active" ->
  (forall i x, (i < k)%nat -> get_goals st !! i = Some x ->
               ~ (name x = name g /\ target_date x = target_date g)) ->
  exists st',
    complete_button today st k = Saved st' /\
    get_goals st' = alter (mark_completed today) k (get_goals st) /\
    get_goals st' !! k = Some (mark_completed today g).
Proof.
  intros Hw Hk Hs Huniq. unfold complete_button. rewrite Hk, Hs. cbn [negb].
  change (String.eqb "active" "active") with true. cbn [negb].
  rewrite (index_of_first g (get_goals st) k g Hk (goal_eqb_refl g)).
  2:{ intros i x Hi Hx. apply (other_name_not_equal x g); eauto. }
  rewrite list_lookup_alter_eq, Hk. cbn [fmap option_fmap option_map].
  rewrite (index_of_first (set_status "completed" g)
             (alter (set_status "completed") k (get_goals st)) k
             (set_status "completed" g)).
  - eexists. split; [reflexivity|].
    rewrite (get_goals_saved _ _ Hw).
    rewrite list_alter_alter_eq.
    split; [reflexivity|].
    now rewrite list_lookup_alter_eq, Hk.
  - now rewrite list_lookup_alter_eq, Hk.
  - apply goal_eqb_refl.
  - intros i x Hi Hx. rewrite list_lookup_alter_ne in Hx by lia.
    apply (other_name_not_equal x g); eauto.
Qed.

Lemma complete_button_marks_goal_witness :
  exists st',
    complete_button "2024-03-10" Sample.store 0 = Saved st' /\
    get_goals st' = [mark_completed "2024-03-10" Sample.first_workout;
                     Sample.marathon].
Proof.
  destruct (complete_button_marks_goal "2024-03-10" Sample.store 0
              Sample.first_workout eq_refl eq_refl eq_refl)
    as (st' & Hrun & Hgoals & _).
  - intros i x Hi. lia.
  - exists st'. split; [exact Hrun|]. rewrite Hgoals. reflexivity.
Defined.

(** X22.  Pressing Complete on an active goal that has an identical
    twin earlier in the list (and shares its name and target date with
    no other earlier goal) splits the update between the two: the twin
    gets the status [completed] and keeps its completion date, and the
    goal whose button was pressed stays active and gets today's date as
    its completion date. *)
Theorem complete_button_with_twin (today : string) (st : Store)
    (j k : nat) (twin g : goal) :
  writable st = true ->
  (j < k)%nat ->
  get_goals st !! j = Some twin -> get_goals st !! k = Some g ->
  goal_eqb twin g = true ->
  status g = "active" ->
  (forall i x, (i < k)%nat -> i <> j -> get_goals st !! i = Some x ->
               ~ (name x = name g /\ target_date x = target_date g)) ->
  exists st',
    complete_button today st k = Saved st' /\
    get_goals st' !! j = Some (set_status "completed" twin) /\
    get_goals st' !! k = Some (set_completion_date today g) /\
    forall i, i <> j -> i <> k -> get_goals st' !! i = get_goals st !! i.
Proof.
  intros Hw Hjk Hj Hk Heq Hs Huniq. unfold complete_button.
  rewrite Hk, Hs. change (String.eqb "active" "active") with true. cbn [negb].
  destruct (goal_eqb_fields _ _ Heq) as (Hn & Hd & Hst).
  rewrite (index_of_first g (get_goals st) j twin Hj Heq).
  2:{ intros i x Hi Hx. apply (other_name_not_equal x g); eauto.
      apply Huniq with i; [lia|lia|exact Hx]. }
  rewrite list_lookup_alter_ne, Hk by lia.
  rewrite (index_of_first g (alter (set_status "completed") j (get_goals st))
             k g).
  - eexists. split; [reflexivity|].
    rewrite (get_goals_saved _ _ Hw). split; [|split].
    + rewrite list_lookup_alter_ne by lia.
      now rewrite list_lookup_alter_eq, Hj.
    + rewrite list_lookup_alter_eq, list_lookup_alter_ne by lia.
      now rewrite Hk.
    + intros i Hij Hik. now rewrite !list_lookup_alter_ne by congruence.
  - rewrite list_lookup_alter_ne by lia. exact Hk.
  - apply goal_eqb_refl.
  - intros i x Hi Hx. destruct (decide (i = j)) as [->|Hij].
    + rewrite list_lookup_alter_eq, Hj in Hx. injection Hx as <-.
      destruct (goal_eqb (set_status "completed" twin) g) eqn:E;
        [|reflexivity].
      apply goal_eqb_fields in E. destruct E as (_ & _ & E).
      cbn in E. rewrite Hs in E. discriminate.
    + rewrite list_lookup_alter_ne in Hx by congruence.
      apply (other_name_not_equal x g); eauto.
Qed.

Lemma complete_button_with_twin_witness :
  exists st',
    complete_button "2024-03-10" Fixture.twins 1 = Saved st' /\
    get_goals st'
    = [set_status "completed" Sample.first_workout;
       set_completion_date "2024-03-10" Sample.first_workout].
Proof.
  destruct (complete_button_with_twin "2024-03-10" Fixture.twins
              0 1 Sample.first_workout Sample.first_workout)
    as (st' & Hrun & H0 & H1 & _); try reflexivity.
  - lia.
  - intros i x Hi Hne. lia.
  - exists st'. split; [exact Hrun|].
    pose proof Hrun as Hval. vm_compute in Hval.
    injection Hval as <-. reflexivity.
Defined.

(** ** When the consistency gauge is full *)



(** ** Date ranges *)

Section DateRangeFacts.

Variable strptime : string -> option Z.
Variable strftime : Z -> string.

Lemma date_range_loop_days (fuel : nat) (current end_ : Z)
    (date_list : list string) :
  (Z.to_nat (end_ - current + 1) <= fuel)%nat ->
  date_range_loop strftime fuel current end_ date_list
  = Some (date_list
          ++ map strftime (seqZ current (end_ - current + 1)))%list.
Proof.
  revert current date_list.
  induction fuel as [|fuel IH]; intros current date_list Hfuel;
    cbn [date_range_loop]; destruct (Z.leb_spec current end_) as [Hle|Hgt].
  - lia.
  - rewrite seqZ_nil by lia. cbn. now rewrite app_nil_r.
  - rewrite IH by lia.
    rewrite (seqZ_cons current) by lia. cbn [map].
    rewrite <- app_assoc. cbn [app].
    replace (current + 1)%Z with (Z.succ current) by lia.
    replace (end_ - Z.succ current + 1)%Z
      with (Z.pred (end_ - current + 1)) by lia.
    reflexivity.
  - rewrite seqZ_nil by lia. cbn. now rewrite app_nil_r.
Qed.

(** X24.  [date_range] raises on a date that does not parse and
    otherwise returns one string per day from the start date to the end
    date, both included and in order: [end - start + 1] strings, the
    i-th being the formatted day [start + i], and none at all when the
    end date precedes the start date.  The loop stops by its own test
    after that many iterations. *)
Theorem date_range_days (start_date end_date : string) :
  (forall fuel,
      strptime start_date = None \/ strptime end_date = None ->
      date_range strptime strftime fuel start_date end_date = BadDate) /\
  (forall (start end_ : Z) (fuel : nat),
      strptime start_date = Some start ->
      strptime end_date = Some end_ ->
      (Z.to_nat (end_ - start + 1) <= fuel)%nat ->
      exists date_list,
        date_range strptime strftime fuel start_date end_date
          = Dates date_list /\
        length date_list = Z.to_nat (end_ - start + 1) /\
        (forall i : nat,
            (Z.of_nat i < end_ - start + 1)%Z ->
            date_list !! i = Some (strftime (start + Z.of_nat i))) /\
        ((end_ < start)%Z -> date_list = [])).
Proof.
  split.
  - intros fuel [H|H]; unfold date_range; rewrite H; [reflexivity|].
    now destruct (strptime start_date).
  - intros start end_ fuel Hs He Hfuel. unfold date_range.
    rewrite Hs, He, (date_range_loop_days fuel start end_ [] Hfuel).
    cbn [app]. eexists. split; [reflexivity|]. split; [|split].
    + now rewrite length_map, length_seqZ.
    + intros i Hi. rewrite list_lookup_fmap, lookup_seqZ_lt by exact Hi.
      reflexivity.
    + intros Hlt. now rewrite seqZ_nil by lia.
Qed.

End DateRangeFacts.

Lemma date_range_days_witness :
  date_range Fixture.strptime Fixture.strftime 3 "2024-03-01" "2024-03-03"
  = Dates ["2024-03-01"; "2024-03-02"; "2024-03-03"] /\
  date_range Fixture.strptime Fixture.strftime 3 "2024-03-03" "2024-03-01"
  = Dates [] /\
  date_range Fixture.strptime Fixture.strftime 3 "2024-03-01" "03/03/2024"
  = BadDate.
Proof.
  split; [|split].
  - destruct (date_range_days Fixture.strptime Fixture.strftime
                "2024-03-01" "2024-03-03") as [_ H].
    destruct (H 19783%Z 19785%Z 3%nat eq_refl eq_refl) as (l & Hrun & _);
      [vm_compute; lia|].
    pose proof Hrun as Hval. vm_compute in Hval. injection Hval as <-.
    exact Hrun.
  - destruct (date_range_days Fixture.strptime Fixture.strftime
                "2024-03-03" "2024-03-01") as [_ H].
    destruct (H 19785%Z 19783%Z 3%nat eq_refl eq_refl)
      as (l & Hrun & _ & _ & Hempty); [vm_compute; lia|].
    rewrite Hempty in Hrun; [exact Hrun|lia].
  - apply (date_range_days Fixture.strptime Fixture.strftime
             "2024-03-01" "03/03/2024"). right. reflexivity.
Defined.

(** ** Recent workouts *)

Lemma string_leb_trans (a b c : string) :
  String.leb a b = true -> String.leb b c = true -> String.leb a c = true.
Proof.
  unfold String.leb. intros Hab Hbc.
  destruct (String.compare a b) eqn:Eab; try discriminate.
  - apply String.compare_eq_iff in Eab. now subst.
  - destruct (String.compare b c) eqn:Ebc; try discriminate.
    + apply String.compare_eq_iff in Ebc. subst. now rewrite Eab.
    + assert (H : String.compare a c = Lt).
      { apply String_as_OT.cmp_lt.
        apply String_as_OT.lt_trans with b; now apply String_as_OT.cmp_lt. }
      now rewrite H.
Qed.

Lemma strongly_sorted_split {A} (R : A -> A -> Prop) (l1 l2 : list A) :
  StronglySorted R (l1 ++ l2) ->
  forall a b, In a l1 -> In b l2 -> R a b.
Proof.
  induction l1 as [|x l1 IH]; intros Hs a b Ha Hb; [destruct Ha|].
  cbn in Hs. apply StronglySorted_inv in Hs. destruct Hs as [Hs Hall].
  destruct Ha as [<-|Ha].
  - rewrite List.Forall_forall in Hall. apply Hall.
    apply in_or_app. now right.
  - now apply IH.
Qed.

(** X25.  The dashboard lists the latest workouts: at most three, all of
    them if the history holds fewer, newest first, and no workout left
    out is dated later than a listed one. *)
Theorem recent_workouts_are_latest (workout_history : list workout) :
  let recent := recent_workouts workout_history in
  length recent = Nat.min 3 (length workout_history) /\
  Sorted (fun x y => String.leb (w_date y) (w_date x) = true) recent /\
  exists left_out,
    Permutation (recent ++ left_out) workout_history /\
    forall shown hidden,
      In shown recent -> In hidden left_out ->
      String.leb (w_date hidden) (w_date shown) = true.
Proof.
  cbv zeta. unfold recent_workouts.
  set (newest_first := fun x y : workout => String.leb (w_date y) (w_date x)).
  set (sorted := sort_by newest_first workout_history).
  assert (Hsorted : Sorted (fun x y => newest_first x y = true) sorted).
  { apply sort_by_sorted. intros x y. apply String.leb_total. }
  assert (Hstrong : StronglySorted (fun x y => newest_first x y = true) sorted).
  { apply Sorted_StronglySorted; [|exact Hsorted].
    intros x y z Hxy Hyz. unfold newest_first in *.
    now apply string_leb_trans with (w_date y). }
  split; [|split].
  - rewrite length_take. unfold sorted. rewrite sort_by_length. lia.
  - rewrite <- (take_drop 3 sorted) in Hstrong.
    apply StronglySorted_Sorted.
    clear Hsorted. revert Hstrong.
    generalize (take 3 sorted) (drop 3 sorted). intros l1 l2.
    induction l1 as [|x l1 IH]; intros H; [constructor|].
    cbn in H. apply StronglySorted_inv in H. destruct H as [H Hall].
    constructor; [now apply IH|].
    rewrite List.Forall_forall in Hall. apply List.Forall_forall.
    intros y Hy. apply Hall. apply in_or_app. now left.
  - exists (drop 3 sorted). split.
    + rewrite take_drop. apply sort_by_perm.
    + intros shown hidden Hs Hh.
      rewrite <- (take_drop 3 sorted) in Hstrong.
      exact (strongly_sorted_split _ _ _ Hstrong shown hidden Hs Hh).
Qed.
